(** * MemTools: the preprocessor-aware memory analyzer

    A shallow embedding of [preprocessor_analyzer.py]: the dependency
    resolver ([ModuleDependencyAnalyzer]), the conditional-compilation
    engine ([PreprocessorParser]) and the parts of the memory estimator
    ([EnhancedModuleAnalyzer]) that the verified properties are about.

    Conventions of the embedding.
    - Python [str] is [string]; the source text is taken to be ASCII, so
      that [str.isspace], [\s] and [\w] are decided on single bytes.
    - Python dicts keep insertion order and the code iterates over them,
      so a dict is an association list with unique keys; a Python [set] is
      a [gset].
    - The builtin [eval] is the host interpreter, not code of the
      repository: the functions that call it take it as an argument
      ([py_eval]).  A host, as [host_eval] describes it, answers a text
      with a value or with an instance of [Exception], and touches no
      object of the analyzer; a text that makes [eval] raise a
      [BaseException] that is no [Exception], or that reaches the
      analyzer's objects through the interpreter, is outside the
      embedding.  The statements that do not depend on the host say so:
      they hold for every [py_eval], or are about runs that never call
      it.  [py_eval_atoms] gives Python's answer on literal atoms and is
      only used to run the functions on concrete inputs.
    - Only the prints that report a problem are kept as output lines; the
      tracing prints marked [# Debug] in the source are left out. *)

From Stdlib Require Import ZArith Ascii String DecimalString List Bool Lia.
From stdpp Require Import base list strings gmap.
Import ListNotations.

Local Open Scope list_scope.

(** ** Python string operations used by the analyzer *)

Module PyStr.

Definition code (c : ascii) : nat := nat_of_ascii c.

(** [str.isspace] on one ASCII character: TAB, LF, VT, FF, CR, the four
    separators FS GS RS US, and the blank. *)
Definition is_space (c : ascii) : bool :=
  let n := code c in
  ((9 <=? n) && (n <=? 13)) || ((28 <=? n) && (n <=? 32)).

Definition is_digit (c : ascii) : bool :=
  let n := code c in (48 <=? n) && (n <=? 57).

Definition is_upper (c : ascii) : bool :=
  let n := code c in (65 <=? n) && (n <=? 90).

Definition is_lower (c : ascii) : bool :=
  let n := code c in (97 <=? n) && (n <=? 122).

(** The class [\w] on ASCII text. *)
Definition is_word (c : ascii) : bool :=
  is_digit c || is_upper c || is_lower c || (code c =? 95).

Definition to_lower (c : ascii) : ascii :=
  if is_upper c then ascii_of_nat (code c + 32) else c.

Fixpoint lower (s : string) : string :=
  match s with
  | EmptyString => EmptyString
  | String c s' => String (to_lower c) (lower s')
  end.

Fixpoint lstrip (s : string) : string :=
  match s with
  | EmptyString => EmptyString
  | String c s' => if is_space c then lstrip s' else s
  end.

(** [rstrip] keeps a character when something that is not blank follows
    it or when it is not blank itself. *)
Fixpoint rstrip (s : string) : string :=
  match s with
  | EmptyString => EmptyString
  | String c s' =>
      match rstrip s' with
      | EmptyString => if is_space c then EmptyString else String c EmptyString
      | r => String c r
      end
  end.

Definition strip (s : string) : string := rstrip (lstrip s).

Definition startswith (s p : string) : bool := String.prefix p s.

(** The slice [s[n:]]. *)
Fixpoint slice_from (n : nat) (s : string) : string :=
  match n, s with
  | O, _ => s
  | S n', String _ s' => slice_from n' s'
  | S _, EmptyString => EmptyString
  end.

(** [s.split(sep)] for a one-character separator: always at least one
    field. *)
Fixpoint split_on (sep : ascii) (s : string) : list string :=
  match s with
  | EmptyString => [EmptyString]
  | String c s' =>
      if Ascii.eqb c sep then EmptyString :: split_on sep s'
      else match split_on sep s' with
           | f :: fs => String c f :: fs
           | [] => [String c EmptyString]
           end
  end.

(** [s.split()]: the maximal runs of characters that are not blank. *)
Fixpoint split_ws_aux (cur : string) (s : string) : list string :=
  match s with
  | EmptyString => match cur with EmptyString => [] | _ => [cur] end
  | String c s' =>
      if is_space c
      then match cur with
           | EmptyString => split_ws_aux EmptyString s'
           | _ => cur :: split_ws_aux EmptyString s'
           end
      else split_ws_aux (cur +:+ String c EmptyString) s'
  end.

Definition split_ws (s : string) : list string := split_ws_aux EmptyString s.

(** [sep.join(l)]. *)
Fixpoint join (sep : string) (l : list string) : string :=
  match l with
  | [] => EmptyString
  | [x] => x
  | x :: rest => x +:+ sep +:+ join sep rest
  end.

(** [s.replace(old, new)]: left to right, matches do not overlap.
    [skip] counts the characters of the current match still to drop. *)
Fixpoint replace_from (old new : string) (skip : nat) (s : string) : string :=
  match s with
  | EmptyString => EmptyString
  | String c s' =>
      match skip with
      | S k => replace_from old new k s'
      | O =>
          if String.prefix old s
          then new +:+ replace_from old new (String.length old - 1) s'
          else String c (replace_from old new 0 s')
      end
  end.

(** With an empty [old], Python puts [new] before every character and
    at the end. *)
Fixpoint intersperse (new : string) (s : string) : string :=
  match s with
  | EmptyString => new
  | String c s' => new +:+ String c (intersperse new s')
  end.

Definition replace (old new : string) (s : string) : string :=
  match old with
  | EmptyString => intersperse new s
  | _ => replace_from old new 0 s
  end.

(** Membership [x in s] of a substring. *)
Fixpoint contains (sub : string) (s : string) : bool :=
  String.prefix sub s ||
  match s with
  | EmptyString => false
  | String _ s' => contains sub s'
  end.

End PyStr.

(** ** Python values and the host interpreter *)

(** The values of the configuration tables ([defines], parameters):
    JSON booleans and integers. *)
Inductive pyval : Type :=
  | PyBool (b : bool)
  | PyInt (z : Z).

(** [bool(v)]. *)
Definition truthy (v : pyval) : bool :=
  match v with
  | PyBool b => b
  | PyInt z => negb (Z.eqb z 0)
  end.

Definition str_of_Z (z : Z) : string := NilZero.string_of_int (Z.to_int z).

(** [str(v)]. *)
Definition py_str (v : pyval) : string :=
  match v with
  | PyBool true => "True"
  | PyBool false => "False"
  | PyInt z => str_of_Z z
  end.

(** A call either returns or raises; what is raised is kept as its
    [str(e)].  Only instances of [Exception] are modelled, which is what
    the syntax and the evaluation of an expression raise by themselves. *)
Inductive outcome (A : Type) : Type :=
  | Returns (a : A)
  | Raises (msg : string).
Arguments Returns {A} a.
Arguments Raises {A} msg.

(** What [eval] can return: a boolean, an integer, or any other object,
    of which the code only ever asks [bool(x)] and [int(x)]. *)
Inductive pyobj : Type :=
  | ObjBool (b : bool)
  | ObjInt (z : Z)
  | ObjOther (truth : bool) (as_int : outcome Z).

(** [bool(x)]. *)
Definition py_bool (x : pyobj) : bool :=
  match x with
  | ObjBool b => b
  | ObjInt z => negb (Z.eqb z 0)
  | ObjOther t _ => t
  end.

(** [int(x)]. *)
Definition py_int (x : pyobj) : outcome Z :=
  match x with
  | ObjBool b => Returns (if b then 1%Z else 0%Z)
  | ObjInt z => Returns z
  | ObjOther _ r => r
  end.

(** The two environments the code passes to [eval]: no builtins and no
    names at all, and the one of [_evaluate_range] with [abs], [min] and
    [max]. *)
Inductive pyenv : Type :=
  | EnvEmpty
  | EnvRange.

Definition host_eval : Type := pyenv -> string -> outcome pyobj.

(** Dicts: association lists in insertion order. *)
Section Dict.
Context {V : Type}.

Fixpoint dict_get (k : string) (d : list (string * V)) : option V :=
  match d with
  | [] => None
  | (k', v) :: d' => if String.eqb k k' then Some v else dict_get k d'
  end.

Definition dict_mem (k : string) (d : list (string * V)) : bool :=
  match dict_get k d with Some _ => true | None => false end.

(** [d[k] = v]: an existing key keeps its place. *)
Fixpoint dict_set (k : string) (v : V) (d : list (string * V)) : list (string * V) :=
  match d with
  | [] => [(k, v)]
  | (k', v') :: d' =>
      if String.eqb k k' then (k, v) :: d' else (k', v') :: dict_set k v d'
  end.
End Dict.

(** ** The conditional-compilation engine *)

(** [PreprocessorState]: the symbol table and the activation stack, whose
    top is the end of the list as with [append] and [pop]. *)
Record PreprocessorState : Type := mkState {
  defines : list (string * pyval);
  active_blocks : list pyval
}.

(** A fresh state: [field(default_factory=lambda: [True])]. *)
Definition new_state (defs : list (string * pyval)) : PreprocessorState :=
  mkState defs [PyBool true].

(** [all(self.active_blocks)]. *)
Definition is_active (st : PreprocessorState) : bool :=
  forallb truthy (active_blocks st).

Definition set_blocks (st : PreprocessorState) (bs : list pyval) : PreprocessorState :=
  mkState (defines st) bs.

(** [self.state.active_blocks.append(v)]. *)
Definition push_block (st : PreprocessorState) (v : pyval) : PreprocessorState :=
  set_blocks st (active_blocks st ++ [v]).

(** [self.state.active_blocks.pop()], called on a list that is not
    empty: the state after it and the value it returns. *)
Definition pop_block (st : PreprocessorState) : PreprocessorState * pyval :=
  (set_blocks st (removelast (active_blocks st)),
   List.last (active_blocks st) (PyBool false)).

Module Regex.
Import PyStr.

(** The longest run of [\w] characters at the start, and what follows. *)
Fixpoint word_run (s : string) : string * string :=
  match s with
  | EmptyString => (EmptyString, EmptyString)
  | String c s' =>
      if is_word c
      then let (w, r) := word_run s' in (String c w, r)
      else (EmptyString, s)
  end.

Definition head (s : string) : option ascii :=
  match s with
  | EmptyString => None
  | String c _ => Some c
  end.

(** [defined\((\w+)\)] at the start of [s]: group 1 and the length of
    the match.  [\w+] is greedy and what must follow it is not a word
    character, so only the longest run can match. *)
Definition match_defined (s : string) : option (string * nat) :=
  if String.prefix "defined(" s then
    let (w, r) := word_run (slice_from 8 s) in
    match w, head r with
    | String _ _, Some ")"%char => Some (w, 8 + String.length w + 1)
    | _, _ => None
    end
  else None.

(** [\b]: exactly one of the two neighbours is a word character. *)
Definition wordp (c : option ascii) : bool :=
  match c with
  | Some c => is_word c
  | None => false
  end.

Definition boundary (before after : option ascii) : bool :=
  xorb (wordp before) (wordp after).

Fixpoint last_char (before : option ascii) (s : string) : option ascii :=
  match s with
  | EmptyString => before
  | String c s' => last_char (Some c) s'
  end.

(** [\bNAME\b] at the start of [s], [before] being the character that
    precedes it.  [NAME] is a word of [\w] characters. *)
Definition match_word (name : string) (before : option ascii) (s : string) : bool :=
  boundary before (head s) && String.prefix name s &&
  boundary (last_char before name) (head (slice_from (String.length name) s)).

(** [re.sub(r'\bNAME\b', repl, s)], [repl] without backslash. *)
Fixpoint sub_word (name repl : string) (before : option ascii) (skip : nat)
    (s : string) : string :=
  match s with
  | EmptyString => EmptyString
  | String c s' =>
      match skip with
      | S k => sub_word name repl (Some c) k s'
      | O =>
          if match_word name before s
          then repl +:+ sub_word name repl (Some c) (String.length name - 1) s'
          else String c (sub_word name repl (Some c) 0 s')
      end
  end.

(** Names the model of [\bNAME\b] is faithful for: words, not empty. *)
Definition is_name (s : string) : bool :=
  match word_run s with
  | (String _ _, EmptyString) => true
  | _ => false
  end.
End Regex.

Section Engine.
Variable py_eval : host_eval.

(** [re.sub(r'defined\((\w+)\)', lambda m: str(m.group(1) in defines), expr)]. *)
Fixpoint sub_defined (defs : list (string * pyval)) (skip : nat) (s : string) : string :=
  match s with
  | EmptyString => EmptyString
  | String c s' =>
      match skip with
      | S k => sub_defined defs k s'
      | O =>
          match Regex.match_defined s with
          | Some (name, n) =>
              py_str (PyBool (dict_mem name defs)) +:+ sub_defined defs (n - 1) s'
          | None => String c (sub_defined defs 0 s')
          end
      end
  end.

(** The text handed to [eval]: the three rewriting steps of
    [_evaluate_preprocessor_expression]. *)
Definition rewrite_expression (st : PreprocessorState) (expr : string) : string :=
  let expr := sub_defined (defines st) 0 expr in
  let expr := PyStr.replace "||" " or " (PyStr.replace "&&" " and " expr) in
  fold_left (fun e dv => Regex.sub_word (fst dv) (py_str (snd dv)) None 0 e)
            (defines st) expr.

(** The result and the lines printed. *)
Definition _evaluate_preprocessor_expression (st : PreprocessorState) (expr : string)
    : bool * list string :=
  let expr := rewrite_expression st expr in
  match py_eval EnvEmpty expr with
  | Returns x => (py_bool x, [])
  | Raises msg =>
      (false,
       ["Warning: Could not evaluate preprocessor expression: " +:+ expr;
        "Error: " +:+ msg])
  end.

(** [self.state.defines.get(define, False)]. *)
Definition defines_get (st : PreprocessorState) (define : string) : pyval :=
  match dict_get define (defines st) with
  | Some v => v
  | None => PyBool false
  end.

(** [lines[i]]; every caller has [i < len(lines)]. *)
Definition line_at (lines : list string) (i : nat) : string :=
  nth i lines EmptyString.

(** The state after the directive, the index returned ([i + 1]) and the
    lines printed. *)
Definition _handle_preprocessor_directive (st : PreprocessorState)
    (lines : list string) (i : nat) : PreprocessorState * nat * list string :=
  let line := PyStr.strip (line_at lines i) in
  if PyStr.startswith line "#ifdef" then
    let define := List.last (PyStr.split_ws line) EmptyString in
    let is_defined := defines_get st define in
    (push_block st is_defined, i + 1, [])
  else if PyStr.startswith line "#ifndef" then
    let define := List.last (PyStr.split_ws line) EmptyString in
    let is_defined := negb (truthy (defines_get st define)) in
    (push_block st (PyBool is_defined), i + 1, [])
  else if PyStr.startswith line "#if" then
    let expr := PyStr.strip (PyStr.slice_from 3 line) in
    let (result, out) := _evaluate_preprocessor_expression st expr in
    (push_block st (PyBool result), i + 1, out)
  else if PyStr.startswith line "#elif" then
    match active_blocks st with
    | [] => (st, i + 1, [])
    | _ =>
        let st := fst (pop_block st) in
        let expr := PyStr.strip (PyStr.slice_from 5 line) in
        let (result, out) := _evaluate_preprocessor_expression st expr in
        (push_block st (PyBool result), i + 1, out)
    end
  else if PyStr.startswith line "#else" then
    match active_blocks st with
    | [] => (st, i + 1, [])
    | _ =>
        let (st, current) := pop_block st in
        (push_block st (PyBool (negb (truthy current))), i + 1, [])
    end
  else if PyStr.startswith line "#endif" then
    match active_blocks st with
    | [] => (st, i + 1, [])
    | _ => (fst (pop_block st), i + 1, [])
    end
  else (st, i + 1, []).

(** The [while i < len(lines)] loop of [parse_file]; [fuel] bounds the
    number of iterations. *)
Fixpoint parse_loop (fuel : nat) (st : PreprocessorState) (lines : list string)
    (i : nat) (processed_lines : list string) (out : list string)
    : option (PreprocessorState * list string * list string) :=
  if negb (i <? length lines) then Some (st, processed_lines, out)
  else
    match fuel with
    | O => None
    | S fuel' =>
        let line := PyStr.strip (line_at lines i) in
        if PyStr.startswith line "#" then
          let '(st', i', o) := _handle_preprocessor_directive st lines i in
          parse_loop fuel' st' lines (i' + 1) processed_lines (out ++ o)
        else if is_active st then
          parse_loop fuel' st lines (i + 1) (processed_lines ++ [line_at lines i]) out
        else
          parse_loop fuel' st lines (i + 1) processed_lines out
    end.

(** The body of [parse_file] up to the loop's end, given the text of
    the file: the state it leaves, [processed_lines] and the lines
    printed. *)
Definition parse_lines (st : PreprocessorState) (content : string)
    : option (PreprocessorState * list string * list string) :=
  let lines := PyStr.split_on "010"%char content in
  parse_loop (length lines) st lines 0 [] [].

(** [parse_file]: the effective text is ['\n'.join(processed_lines)]. *)
Definition parse_file (st : PreprocessorState) (content : string)
    : option (PreprocessorState * string * list string) :=
  match parse_lines st content with
  | Some (st', processed_lines, out) =>
      Some (st', PyStr.join (String "010"%char EmptyString) processed_lines, out)
  | None => None
  end.
End Engine.

(** ** Python's [eval] on atoms

    Python's answer for the simplest expressions, used to run the
    functions above on concrete inputs: the literals [True] and [False], a
    decimal integer literal, and a name that is bound to nothing. *)
Module Atoms.
Import PyStr.

Fixpoint all_chars (p : ascii -> bool) (s : string) : bool :=
  match s with
  | EmptyString => true
  | String c s' => p c && all_chars p s'
  end.

Fixpoint digits_value (acc : Z) (s : string) : Z :=
  match s with
  | EmptyString => acc
  | String c s' => digits_value (10 * acc + Z.of_nat (code c - 48))%Z s'
  end.

(** A decimal literal: digits only, no leading zero unless it is all
    zeros, within the length Python converts. *)
Definition is_decimal_literal (s : string) : bool :=
  match s with
  | EmptyString => false
  | String c _ =>
      all_chars is_digit s
      && (negb (code c =? 48) || all_chars (fun d => code d =? 48) s)
      && (String.length s <=? 4300)
  end.

Definition keywords : list string :=
  ["False"; "None"; "True"; "and"; "as"; "assert"; "async"; "await";
   "break"; "class"; "continue"; "def"; "del"; "elif"; "else"; "except";
   "finally"; "for"; "from"; "global"; "if"; "import"; "in"; "is";
   "lambda"; "nonlocal"; "not"; "or"; "pass"; "raise"; "return"; "try";
   "while"; "with"; "yield"].

(** A name that starts with a letter and is no keyword. *)
Definition is_plain_name (s : string) : bool :=
  match s with
  | EmptyString => false
  | String c _ =>
      (is_upper c || is_lower c) && all_chars is_word s
      && negb (existsb (String.eqb s) keywords)
  end.

Definition atom (env : pyenv) (s : string) : option (outcome pyobj) :=
  if String.eqb s "True" then Some (Returns (ObjBool true))
  else if String.eqb s "False" then Some (Returns (ObjBool false))
  else if is_decimal_literal s then Some (Returns (ObjInt (digits_value 0 s)))
  else if is_plain_name s then
    match env with
    | EnvEmpty => Some (Raises ("name '" +:+ s +:+ "' is not defined"))
    | EnvRange =>
        if existsb (String.eqb s) ["abs"; "min"; "max"] then None
        else Some (Raises "'NoneType' object is not subscriptable")
    end
  else None.

(** The host restricted to atoms; a text that is no atom is flagged in
    the message. *)
Definition py_eval_atoms : host_eval :=
  fun env s =>
    match atom env s with
    | Some r => r
    | None => Raises ("<not an atom> " +:+ s)
    end.
End Atoms.

(** ** The unit catalog and the dependency graph *)

Module Scan.
Import PyStr.

(** The longest prefix whose characters satisfy [p], and the rest. *)
Fixpoint span (p : ascii -> bool) (s : string) : string * string :=
  match s with
  | EmptyString => (EmptyString, EmptyString)
  | String c s' =>
      if p c then let (w, r) := span p s' in (String c w, r)
      else (EmptyString, s)
  end.

(** A literal under [(?i)]: [kw] is given in lower case. *)
Definition iprefix (kw : string) (s : string) : bool :=
  String.prefix kw (lower (String.substring 0 (String.length kw) s)).

(** [re.finditer]: the matcher gives, at the start of a text, the groups
    and the length of the match (never 0 for the patterns here); the
    search goes on after the match. *)
Fixpoint finditer {G : Type} (m : string -> option (G * nat)) (skip : nat)
    (s : string) : list G :=
  match s with
  | EmptyString => []
  | String _ s' =>
      match skip with
      | S k => finditer m k s'
      | O =>
          match m s with
          | Some (g, n) => g :: finditer m (n - 1) s'
          | None => finditer m 0 s'
          end
      end
  end.

(** [(?i)KW\s+(\w+)]: group 1 and the length of the match.  Both runs
    are greedy and there is nothing to backtrack into: the class that
    follows each run is disjoint from it. *)
Definition match_keyword_name (kw : string) (s : string) : option (string * nat) :=
  if iprefix kw s then
    let (sp, r) := span is_space (slice_from (String.length kw) s) in
    let (w, _) := span is_word r in
    match sp, w with
    | String _ _, String _ _ =>
        Some (w, String.length kw + String.length sp + String.length w)
    | _, _ => None
    end
  else None.

(** The lower-cased names after a keyword, in the order of the text. *)
Definition names_after (kw : string) (content : string) : list string :=
  map lower (finditer (match_keyword_name kw) 0 content).
End Scan.

(** The directory: the [*.F90] files in the order [glob] yields them,
    each with its name and its text. *)
Definition directory : Type := list (string * string).

Definition read_file (dir : directory) (path : string) : string :=
  match dict_get path dir with
  | Some content => content
  | None => EmptyString
  end.

Record ModuleDependencyAnalyzer : Type := mkAnalyzer {
  source_dir : directory;
  modules : list (string * string);
  programs : list (string * string);
  dependencies : list (string * gset string)
}.

Definition new_analyzer (dir : directory) : ModuleDependencyAnalyzer :=
  mkAnalyzer dir [] [] [].

(** [scan_files]: every module and program name is registered with the
    file that declares it; a later file overwrites an earlier one. *)
Definition scan_files (a : ModuleDependencyAnalyzer) : ModuleDependencyAnalyzer :=
  fold_left
    (fun a fc =>
       let '(f90_file, content) := fc in
       let mods := fold_left (fun ms name => dict_set name f90_file ms)
                             (Scan.names_after "module" content) (modules a) in
       let progs := fold_left (fun ps name => dict_set name f90_file ps)
                              (Scan.names_after "program" content) (programs a) in
       mkAnalyzer (source_dir a) mods progs (dependencies a))
    (source_dir a) a.

(** [_analyze_file_dependencies]. *)
Definition _analyze_file_dependencies (a : ModuleDependencyAnalyzer)
    (name file_path : string) : ModuleDependencyAnalyzer :=
  let content := read_file (source_dir a) file_path in
  let deps : gset string := list_to_set (Scan.names_after "use" content) in
  mkAnalyzer (source_dir a) (modules a) (programs a)
             (dict_set name deps (dependencies a)).

(** [analyze_dependencies]: modules first, then programs. *)
Definition analyze_dependencies (a : ModuleDependencyAnalyzer) : ModuleDependencyAnalyzer :=
  let a := fold_left (fun a nf => _analyze_file_dependencies a (fst nf) (snd nf))
                     (modules a) a in
  fold_left (fun a nf => _analyze_file_dependencies a (fst nf) (snd nf))
            (programs a) a.

(** The first name of a table registered with file [filename]. *)
Fixpoint find_by_file (filename : string) (table : list (string * string)) : option string :=
  match table with
  | [] => None
  | (name, path) :: rest =>
      if String.eqb path filename then Some name else find_by_file filename rest
  end.

Definition find_target (a : ModuleDependencyAnalyzer) (filename : string) : option string :=
  match find_by_file filename (modules a) with
  | Some name => Some name
  | None => find_by_file filename (programs a)
  end.

(** [self.dependencies.get(name, set())], in the order the set is
    iterated. *)
Definition deps_of (dependencies : list (string * gset string)) (name : string) : list string :=
  match dict_get name dependencies with
  | Some s => elements s
  | None => []
  end.

(** [dep not in needed]. *)
Definition in_list (x : string) (l : list string) : bool :=
  existsb (String.eqb x) l.

(** The loop [for dep in ...] of [visit]: the recursive call on [dep],
    then [dep] is appended to [needed] unless it is there. *)
Definition visit_deps
    (rec : string -> gset string * list string -> option (gset string * list string))
    (deps : list string) (vn : option (gset string * list string))
    : option (gset string * list string) :=
  fold_left
    (fun acc dep =>
       match acc with
       | None => None
       | Some vn =>
           match rec dep vn with
           | None => None
           | Some (visited, needed) =>
               Some (visited, if in_list dep needed then needed else needed ++ [dep])
           end
       end)
    deps vn.

(** The nested function [visit], on the pair of [visited] and [needed];
    [fuel] bounds the depth of the recursion. *)
Fixpoint visit (fuel : nat) (deps : string -> list string) (name : string)
    (vn : gset string * list string) : option (gset string * list string) :=
  match fuel with
  | O => None
  | S fuel' =>
      if bool_decide (name ∈ vn.1) then Some vn
      else visit_deps (visit fuel' deps) (deps name) (Some ({[name]} ∪ vn.1, vn.2))
  end.

(** The order for a target unit: the part of [analyze_file] after the
    target is found. *)
Definition resolve_order (dependencies : list (string * gset string))
    (target_name : string) : option (list string) :=
  match visit (S (length dependencies)) (deps_of dependencies) target_name (∅, []) with
  | Some (_, needed) => Some (needed ++ [target_name])
  | None => None
  end.

(** [analyze_file]: the analyzer after the scan and the order. *)
Definition analyze_file (a : ModuleDependencyAnalyzer) (filename : string)
    : option (ModuleDependencyAnalyzer * list string) :=
  let a := analyze_dependencies (scan_files a) in
  match find_target a filename with
  | None => Some (a, [])
  | Some target_name =>
      match resolve_order (dependencies a) target_name with
      | Some order => Some (a, order)
      | None => None
      end
  end.

(** ** The memory estimator *)

Module Decl.
Import PyStr Scan.

Definition newline : ascii := "010"%char.

(** The tail [.*?::\s*(\w+)] of the derived-type pattern: the lazy run
    stops at the first [::] that a name follows, and never crosses a
    line end.  Gives group 2 and the length, [k] characters being
    consumed already. *)
Fixpoint match_declared (k : nat) (s : string) : option (string * nat) :=
  let here :=
    if String.prefix "::" s then
      let (sp, r) := span is_space (slice_from 2 s) in
      let (w, _) := span is_word r in
      match w with
      | String _ _ => Some (w, k + 2 + String.length sp + String.length w)
      | EmptyString => None
      end
    else None in
  match here with
  | Some r => Some r
  | None =>
      match s with
      | EmptyString => None
      | String c s' =>
          if Ascii.eqb c newline then None else match_declared (S k) s'
      end
  end.

(** [(?i)type\s*\((\w+)\).*?::\s*(\w+)] at the start of [s]: the two
    groups and the length of the match. *)
Definition match_derived (s : string) : option (string * string * nat) :=
  if iprefix "type" s then
    let (sp, r) := span is_space (slice_from 4 s) in
    match r with
    | String "("%char r1 =>
        let (tag, r2) := span is_word r1 in
        match tag, r2 with
        | String _ _, String ")"%char r3 =>
            match match_declared (4 + String.length sp + 1 + String.length tag + 1) r3 with
            | Some (value, n) => Some (tag, value, n)
            | None => None
            end
        | _, _ => None
        end
    | _ => None
    end
  else None.

(** [(?i)use\s+(\w+)(?:\s*,\s*only\s*:)?]: group 1 and the length of
    the match, the optional group being taken when it matches. *)
Definition match_use (s : string) : option (string * nat) :=
  match match_keyword_name "use" s with
  | None => None
  | Some (w, n) =>
      let (sp1, r1) := span is_space (slice_from n s) in
      match r1 with
      | String ","%char r2 =>
          let (sp2, r3) := span is_space r2 in
          if iprefix "only" r3 then
            let (sp3, r4) := span is_space (slice_from 4 r3) in
            match r4 with
            | String ":"%char _ =>
                Some (w, n + String.length sp1 + 1 + String.length sp2 + 4
                         + String.length sp3 + 1)
            | _ => Some (w, n)
            end
          else Some (w, n)
      | _ => Some (w, n)
      end
  end.
End Decl.

(** A value stored in a result entry. *)
Inductive field : Type :=
  | FStr (s : string)
  | FInt (z : Z).

(** The entries [_analyze_memory_usage] appends to
    [memory_info['derived_types']]: the iteration of its loop for the
    category [derived_types], each entry being the dict [{'name': name}]. *)
Definition derived_types (content : string) : list (list (string * field)) :=
  map (fun m : string * string => let name := fst m in [("name", FStr name)])
      (Scan.finditer Decl.match_derived 0 content).

(** [_find_dependencies]. *)
Definition _find_dependencies (content : string) : list string :=
  fold_left
    (fun deps module_name =>
       if in_list (PyStr.lower module_name) deps then deps
       else deps ++ [PyStr.lower module_name])
    (Scan.finditer Decl.match_use 0 content) [].

Section Estimator.
Variable py_eval : host_eval.

(** [int(eval(text, {"__builtins__": None}, safe_dict))]. *)
Definition eval_int (text : string) : outcome Z :=
  match py_eval EnvRange text with
  | Returns x => py_int x
  | Raises msg => Raises msg
  end.

(** The substitution loop of [_evaluate_range] on one bound. *)
Definition substitute_params (params : list (string * pyval)) (text : string) : string :=
  fold_left (fun t pv => PyStr.replace (fst pv) (py_str (snd pv)) t) params text.

(** [_evaluate_range]: what it returns or raises, and the lines printed
    when the evaluation fails. *)
Definition _evaluate_range (range_expr : string) (params : list (string * pyval))
    : outcome Z * list string :=
  if negb (PyStr.contains ":" range_expr) then (Returns 1%Z, [])
  else
    match map PyStr.strip (PyStr.split_on ":"%char range_expr) with
    | [start; end_] =>
        let start := substitute_params params start in
        let end_ := substitute_params params end_ in
        let failed msg :=
          (Returns 100%Z,
           ["Could not evaluate range " +:+ start +:+ ":" +:+ end_ +:+ ": " +:+ msg;
            "Using default size"]) in
        match eval_int start with
        | Raises msg => failed msg
        | Returns start_val =>
            match eval_int end_ with
            | Raises msg => failed msg
            | Returns end_val => (Returns (end_val - start_val + 1)%Z, [])
            end
        end
    | _ => (Raises "too many values to unpack (expected 2)", [])
    end.
End Estimator.

(** ** The orchestrator *)

(** The record stored for a unit.  Of [memory_usage] the list
    [derived_types] is kept; the lists of arrays are not part of this
    model. *)
Record unit_result : Type := mkUnitResult {
  name : string;
  file_path : string;
  memory_usage_derived_types : list (list (string * field));
  unit_dependencies : list string
}.

Inductive unit_kind : Type :=
  | KModule
  | KProgram.

Definition results : Type := list (string * (unit_kind * unit_result)).

Record EnhancedModuleAnalyzer : Type := mkEnhanced {
  source_root : directory;
  preprocessor : PreprocessorState;
  processed_contents : list (string * string)
}.

(** [EnhancedModuleAnalyzer(source_root, config_file)], the configuration
    being given by its [defines]. *)
Definition new_enhanced (dir : directory) (defs : list (string * pyval))
    : EnhancedModuleAnalyzer :=
  mkEnhanced dir (new_state defs) [].

Section Orchestrator.
Variable py_eval : host_eval.

(** One iteration of the loop over [unit_order]. *)
Definition process_unit (dep_analyzer : ModuleDependencyAnalyzer) (unit : string)
    (acc : EnhancedModuleAnalyzer * results * list string)
    : option (EnhancedModuleAnalyzer * results * list string) :=
  let '(self, res, out) := acc in
  let unit_file :=
    match dict_get unit (modules dep_analyzer) with
    | Some f => Some f
    | None => dict_get unit (programs dep_analyzer)
    end in
  match unit_file with
  | None => Some (self, res, out ++ ["Could not find file for " +:+ unit])
  | Some unit_file =>
      match parse_file py_eval (preprocessor self)
                       (read_file (source_root self) unit_file) with
      | None => None
      | Some (st, processed_content, printed) =>
          let self := mkEnhanced (source_root self) st
                        (dict_set unit processed_content (processed_contents self)) in
          let unit_result :=
            mkUnitResult unit unit_file (derived_types processed_content)
                         (_find_dependencies processed_content) in
          let kind := if dict_mem unit (modules dep_analyzer) then KModule else KProgram in
          Some (self, dict_set unit (kind, unit_result) res, out ++ printed)
      end
  end.

(** [analyze_module]: the analyzer after the call, the results and the
    lines printed. *)
Definition analyze_module (self : EnhancedModuleAnalyzer) (filename : string)
    : option (EnhancedModuleAnalyzer * results * list string) :=
  match analyze_file (new_analyzer (source_root self)) filename with
  | None => None
  | Some (dep_analyzer, unit_order) =>
      let self := mkEnhanced (source_root self) (preprocessor self) [] in
      fold_left
        (fun acc unit =>
           match acc with
           | None => None
           | Some acc => process_unit dep_analyzer unit acc
           end)
        unit_order (Some (self, [], []))
  end.
End Orchestrator.

(** ** The estimator: parameters, sizes and the three categories *)

Module Est.
Import PyStr Scan.

(** After a literal, given in lower case, under [(?i)]. *)
Definition after_lit (lit : string) (s : string) : option string :=
  if iprefix lit s then Some (slice_from (String.length lit) s) else None.

(** After one given character. *)
Definition after_char (c : ascii) (s : string) : option string :=
  match s with
  | String x r => if Ascii.eqb x c then Some r else None
  | EmptyString => None
  end.

(** After [\s*]. *)
Definition after_spaces (s : string) : string := snd (span is_space s).

(** A run that is not empty: [\w+], [[^)]+]. *)
Definition run1 (p : ascii -> bool) (s : string) : option (string * string) :=
  match span p s with
  | (String c w, r) => Some (String c w, r)
  | (EmptyString, _) => None
  end.

Definition bind {A B : Type} (x : option A) (f : A -> option B) : option B :=
  match x with
  | Some a => f a
  | None => None
  end.

(** The length of what a matcher consumed of [s] when [r] is left. *)
Definition consumed (s r : string) : nat := String.length s - String.length r.

(** [(?i)integer\s*,\s*parameter\s*::\s*(\w+)\s*=\s*] and then a last
    run: [(\w+)] in [_collect_parameters], [(\d+)] in
    [_analyze_memory_usage]. *)
Definition match_parameter (last : ascii -> bool) (s : string)
    : option (string * string * nat) :=
  bind (after_lit "integer" s) (fun r =>
  bind (after_char "," (after_spaces r)) (fun r =>
  bind (after_lit "parameter" (after_spaces r)) (fun r =>
  bind (after_lit "::" (after_spaces r)) (fun r =>
  bind (run1 is_word (after_spaces r)) (fun '(name, r) =>
  bind (after_char "=" (after_spaces r)) (fun r =>
  bind (run1 last (after_spaces r)) (fun '(value, r) =>
  Some (name, value, consumed s r)))))))).

Definition not_char (c : ascii) (x : ascii) : bool := negb (Ascii.eqb x c).

(** [(?i)real\s*\((\w+)\)\s*,\s*] and a qualifier: the kind and the
    rest. *)
Definition match_real_with (qualifier : string) (s : string) : option (string * string) :=
  bind (after_lit "real" s) (fun r =>
  bind (after_char "(" (after_spaces r)) (fun r =>
  bind (run1 is_word r) (fun '(kind, r) =>
  bind (after_char ")" r) (fun r =>
  bind (after_char "," (after_spaces r)) (fun r =>
  bind (after_lit qualifier (after_spaces r)) (fun r =>
  Some (kind, r))))))).

(** [(?i)real\s*\((\w+)\)\s*,\s*dimension\s*\(([^)]+)\)\s*::\s*(\w+)]. *)
Definition match_static (s : string) : option (string * string * string * nat) :=
  bind (match_real_with "dimension" s) (fun '(kind, r) =>
  bind (after_char "(" (after_spaces r)) (fun r =>
  bind (run1 (not_char ")") r) (fun '(dims, r) =>
  bind (after_char ")" r) (fun r =>
  bind (after_lit "::" (after_spaces r)) (fun r =>
  bind (run1 is_word (after_spaces r)) (fun '(name, r) =>
  Some (kind, dims, name, consumed s r))))))).

(** The optional group [(?:\([,:]*\))?]: what is left after it. *)
Definition after_shape (s : string) : string :=
  match after_char "(" s with
  | Some r =>
      match after_char ")" (snd (span (fun c => Ascii.eqb c "," || Ascii.eqb c ":") r)) with
      | Some r' => r'
      | None => s
      end
  | None => s
  end.

(** [(?i)real\s*\((\w+)\)\s*,\s*allocatable\s*::\s*(\w+)(?:\([,:]*\))?]. *)
Definition match_allocatable (s : string) : option (string * string * nat) :=
  bind (match_real_with "allocatable" s) (fun '(kind, r) =>
  bind (after_lit "::" (after_spaces r)) (fun r =>
  bind (run1 is_word (after_spaces r)) (fun '(name, r) =>
  Some (kind, name, consumed s (after_shape r))))).

(** [(?i)allocate\s*\(NAME\s*\(([^)]+)\)\)] at the start of [s], for a
    name of [\w] characters: group 1. *)
Definition match_allocate (name : string) (s : string) : option string :=
  bind (after_lit "allocate" s) (fun r =>
  bind (after_char "(" (after_spaces r)) (fun r =>
  bind (after_lit (lower name) r) (fun r =>
  bind (after_char "(" (after_spaces r)) (fun r =>
  bind (run1 (not_char ")") r) (fun '(dims, r) =>
  bind (after_char ")" r) (fun r =>
  bind (after_char ")" r) (fun _ =>
  Some dims))))))).

(** [re.search]: the first position where the matcher succeeds. *)
Fixpoint search {G : Type} (m : string -> option G) (s : string) : option G :=
  match m s with
  | Some g => Some g
  | None =>
      match s with
      | EmptyString => None
      | String _ s' => search m s'
      end
  end.

(** [(?i)use\s+iso_fortran_env\s*,\s*only\s*:] and the group [[^!]*],
    everything up to the next [!]. *)
Definition match_kind_import (s : string) : option (string * nat) :=
  bind (after_lit "use" s) (fun r =>
  bind (run1 is_space r) (fun '(_, r) =>
  bind (after_lit "iso_fortran_env" r) (fun r =>
  bind (after_char "," (after_spaces r)) (fun r =>
  bind (after_lit "only" (after_spaces r)) (fun r =>
  bind (after_char ":" (after_spaces r)) (fun r =>
  let (mappings, r) := span (not_char "!") r in
  Some (mappings, consumed s r))))))).

(** [(\w+)\s*=>\s*(\w+)]. *)
Definition match_mapping (s : string) : option (string * string * nat) :=
  bind (run1 is_word s) (fun '(alias, r) =>
  bind (after_lit "=>" (after_spaces r)) (fun r =>
  bind (run1 is_word (after_spaces r)) (fun '(kind, r) =>
  Some (alias, kind, consumed s r)))).

(** [int(text)] for a text of [\w] characters: decimal digits, single
    underscores between them allowed, at most 4300 digits. *)
Fixpoint int_digits (acc : Z) (count : nat) (after_digit : bool) (s : string) : option Z :=
  match s with
  | EmptyString => if after_digit && (count <=? 4300) then Some acc else None
  | String c s' =>
      if is_digit c then
        int_digits (10 * acc + Z.of_nat (code c - 48))%Z (S count) true s'
      else if Ascii.eqb c "_" && after_digit then int_digits acc count false s'
      else None
  end.

Definition int_of_text (s : string) : option Z := int_digits 0 0 false s.
End Est.

(** [d.update(other)]. *)
Definition dict_update {V : Type} (d other : list (string * V)) : list (string * V) :=
  fold_left (fun d kv => dict_set kv.1 kv.2 d) other d.

(** [_collect_parameters]: the table and the lines printed. *)
Definition _collect_parameters (defs : list (string * pyval)) (content : string)
    : list (string * pyval) * list string :=
  fold_left
    (fun acc m =>
       let '(params, out) := acc in
       let '(param_name, param_value) := m in
       match dict_get param_value params with
       | Some v => (dict_set param_name v params, out)
       | None =>
           match Est.int_of_text param_value with
           | Some z => (dict_set param_name (PyInt z) params, out)
           | None => (params, out ++ ["Could not convert " +:+ param_value +:+ " to integer"])
           end
       end)
    (Scan.finditer (Est.match_parameter PyStr.is_word) 0 content)
    (dict_update [] defs, []).

(** The fixed table of [_calculate_array_size] and its default. *)
Definition type_sizes : list (string * Z) :=
  [("c_double", 8%Z); ("c_float", 4%Z); ("real64", 8%Z); ("real32", 4%Z);
   ("int64", 8%Z); ("int32", 4%Z)].

Definition type_size (type_str : string) : Z :=
  match dict_get type_str type_sizes with
  | Some n => n
  | None => 8%Z
  end.

Section Sizes.
Variable py_eval : host_eval.

(** The parameters of all processed contents, each updating the table
    before it, and the lines printed while they are collected. *)
Definition all_parameters (self : EnhancedModuleAnalyzer)
    : list (string * pyval) * list string :=
  fold_left
    (fun acc kc =>
       let '(params, out) := acc in
       let '(found, printed) :=
         _collect_parameters (defines (preprocessor self)) (snd kc) in
       (dict_update params found, out ++ printed))
    (processed_contents self) ([], []).

(** The loop over the dimensions: the product of the extents so far. *)
Fixpoint total_elements (params : list (string * pyval)) (dims : list string)
    (total : Z) (out : list string) : outcome Z * list string :=
  match dims with
  | [] => (Returns total, out)
  | dim :: rest =>
      match _evaluate_range py_eval dim params with
      | (Returns size, printed) => total_elements params rest (total * size)%Z (out ++ printed)
      | (Raises msg, printed) => (Raises msg, out ++ printed)
      end
  end.

(** [_calculate_array_size]. *)
Definition _calculate_array_size (self : EnhancedModuleAnalyzer) (dims_str type_str : string)
    : outcome Z * list string :=
  let '(params, out) := all_parameters self in
  let dims := map PyStr.strip (PyStr.split_on "," dims_str) in
  match total_elements params dims 1%Z out with
  | (Returns total, out) => (Returns (total * type_size type_str)%Z, out)
  | (Raises msg, out) => (Raises msg, out)
  end.

(** The kind aliases of [_analyze_memory_usage]. *)
Definition kind_mappings (content : string) : list (string * string) :=
  fold_left
    (fun km mappings =>
       fold_left (fun km ak => dict_set (fst ak) (snd ak) km)
                 (Scan.finditer Est.match_mapping 0 mappings) km)
    (Scan.finditer Est.match_kind_import 0 content) [].

Record memory_info : Type := mkMemoryInfo {
  static_arrays : list (list (string * field));
  allocatable_arrays : list (list (string * field));
  derived_type_entries : list (list (string * field))
}.

(** The loop of the category [static_arrays]. *)
Fixpoint static_loop (self : EnhancedModuleAnalyzer)
    (matches : list (string * string * string))
    (entries : list (list (string * field))) (out : list string)
    : outcome (list (list (string * field))) * list string :=
  match matches with
  | [] => (Returns entries, out)
  | (type_param, dims, name) :: rest =>
      match _calculate_array_size self dims type_param with
      | (Returns size, printed) =>
          static_loop self rest
            (entries ++ [[("name", FStr name); ("type", FStr type_param);
                          ("dimensions", FStr dims); ("estimated_size", FInt size)]])
            (out ++ printed)
      | (Raises msg, printed) => (Raises msg, out ++ printed)
      end
  end.

(** The loop of the category [allocatable_arrays]. *)
Fixpoint allocatable_loop (self : EnhancedModuleAnalyzer) (content : string)
    (matches : list (string * string))
    (entries : list (list (string * field))) (out : list string)
    : outcome (list (list (string * field))) * list string :=
  match matches with
  | [] => (Returns entries, out)
  | (kind_param, name) :: rest =>
      match Est.search (Est.match_allocate name) content with
      | None => allocatable_loop self content rest entries out
      | Some dims =>
          let actual_kind :=
            match dict_get kind_param (kind_mappings content) with
            | Some k => k
            | None => kind_param
            end in
          match _calculate_array_size self dims actual_kind with
          | (Returns size, printed) =>
              allocatable_loop self content rest
                (entries ++ [[("name", FStr name);
                              ("type", FStr ("real(" +:+ actual_kind +:+ ")"));
                              ("dimensions", FStr dims); ("estimated_size", FInt size)]])
                (out ++ printed)
          | (Raises msg, printed) => (Raises msg, out ++ printed)
          end
      end
  end.

(** The integers of the table [param_values], which the function fills
    and never reads: only whether [int] accepts them matters. *)
Definition param_values_convert (content : string) : bool :=
  forallb (fun m : string * string =>
             match Est.int_of_text (snd m) with Some _ => true | None => false end)
          (Scan.finditer (Est.match_parameter PyStr.is_digit) 0 content).

(** [_analyze_memory_usage]. *)
Definition _analyze_memory_usage (self : EnhancedModuleAnalyzer) (content : string)
    : outcome memory_info * list string :=
  if negb (param_values_convert content)
  then (Raises "Exceeds the limit (4300 digits) for integer string conversion", [])
  else
    match static_loop self (Scan.finditer Est.match_static 0 content) [] [] with
    | (Raises msg, out) => (Raises msg, out)
    | (Returns statics, out) =>
        match allocatable_loop self content
                (Scan.finditer Est.match_allocatable 0 content) [] out with
        | (Raises msg, out) => (Raises msg, out)
        | (Returns allocs, out) =>
            (Returns (mkMemoryInfo statics allocs (derived_types content)), out)
        end
    end.
End Sizes.

(** ** The orchestrator with the memory estimate

    [analyze_module] as a whole: the record of a unit carries the three
    lists of [_analyze_memory_usage], and an error raised while the sizes
    are computed ends the run where it is raised. *)

Module Full.

Record unit_result : Type := mkUnitResult {
  name : string;
  file_path : string;
  memory_usage : memory_info;
  unit_dependencies : list string
}.

Definition results : Type := list (string * (unit_kind * unit_result)).

Section Run.
Variable py_eval : host_eval.

(** The loop over [unit_order]: the analyzer when the loop ends, the
    results or the error that ended it, and the lines printed. *)
Fixpoint process_units (dep_analyzer : ModuleDependencyAnalyzer)
    (unit_order : list string) (self : EnhancedModuleAnalyzer) (res : results)
    (out : list string)
    : option (EnhancedModuleAnalyzer * outcome results * list string) :=
  match unit_order with
  | [] => Some (self, Returns res, out)
  | unit :: rest =>
      let unit_file :=
        match dict_get unit (modules dep_analyzer) with
        | Some f => Some f
        | None => dict_get unit (programs dep_analyzer)
        end in
      match unit_file with
      | None =>
          process_units dep_analyzer rest self res
            (out ++ ["Could not find file for " +:+ unit])
      | Some unit_file =>
          match parse_file py_eval (preprocessor self)
                           (read_file (source_root self) unit_file) with
          | None => None
          | Some (st, processed_content, printed) =>
              let self := mkEnhanced (source_root self) st
                            (dict_set unit processed_content (processed_contents self)) in
              match _analyze_memory_usage py_eval self processed_content with
              | (Raises msg, printed') =>
                  Some (self, Raises msg, out ++ printed ++ printed')
              | (Returns memory_usage, printed') =>
                  let unit_result :=
                    mkUnitResult unit unit_file memory_usage
                                 (_find_dependencies processed_content) in
                  let kind :=
                    if dict_mem unit (modules dep_analyzer) then KModule else KProgram in
                  process_units dep_analyzer rest self
                    (dict_set unit (kind, unit_result) res)
                    (out ++ printed ++ printed')
              end
          end
      end
  end.

(** [analyze_module]. *)
Definition analyze_module (self : EnhancedModuleAnalyzer) (filename : string)
    : option (EnhancedModuleAnalyzer * outcome results * list string) :=
  match analyze_file (new_analyzer (source_root self)) filename with
  | None => None
  | Some (dep_analyzer, unit_order) =>
      let self := mkEnhanced (source_root self) (preprocessor self) [] in
      process_units dep_analyzer unit_order self [] []
  end.
End Run.

End Full.

(** ** Vocabulary of the statements *)

(** [uses deps x y]: unit [x] references unit [y]. *)
Definition uses (deps : string -> list string) : relation string :=
  fun x y => y ∈ deps x.

(** No unit depends on itself through one or more references. *)
Definition acyclic (deps : string -> list string) : Prop :=
  forall x, ~ tc (uses deps) x x.

(** A decidable certificate that a table of references has no cycle:
    every reference goes to a unit of smaller rank. *)
Definition ranked (rank : string -> nat) (dependencies : list (string * gset string)) : bool :=
  forallb (fun ks : string * gset string =>
             forallb (fun y => rank y <? rank ks.1) (elements ks.2))
          dependencies.

(** What the loop of [visit] and [visit] itself keep true.  [stack] holds
    the units whose loop is still running. *)
Definition closed (deps : string -> list string) (stack visited : gset string)
    (needed : list string) : Prop :=
  forall x d, x ∈ visited -> x ∉ stack -> d ∈ deps x -> d ∈ visited /\ d ∈ needed.

(** What one call of [visit] on [name] guarantees between the state it
    starts from and the state it returns. *)
Definition visit_post (deps : string -> list string) (stack : gset string) (name : string)
    (vn vn' : gset string * list string) : Prop :=
  vn.1 ⊆ vn'.1 /\ name ∈ vn'.1
  /\ (forall x, x ∈ vn.2 -> x ∈ vn'.2)
  /\ (NoDup vn.2 -> NoDup vn'.2)
  /\ (forall x, x ∈ vn'.2 -> x ∈ vn.2 \/ tc (uses deps) name x)
  /\ (closed deps stack vn.1 vn.2 -> closed deps stack vn'.1 vn'.2).

(** The same for the loop over a list [ds] of units that [name] uses. *)
Definition loop_post (deps : string -> list string) (stack : gset string) (name : string) (ds : list string)
    (vn vn' : gset string * list string) : Prop :=
  vn.1 ⊆ vn'.1
  /\ (forall x, x ∈ vn.2 -> x ∈ vn'.2)
  /\ (NoDup vn.2 -> NoDup vn'.2)
  /\ (forall x, x ∈ vn'.2 -> x ∈ vn.2 \/ tc (uses deps) name x)
  /\ (closed deps stack vn.1 vn.2 -> closed deps stack vn'.1 vn'.2)
  /\ (forall d, d ∈ ds -> d ∈ vn'.1 /\ d ∈ vn'.2).

Definition nl : string := String "010"%char EmptyString.

(** The chain of conditional branches of the specification, with Python's
    own literals for the two truth values. *)
Definition elif_chain : list string :=
  ["#if False"; "a"; "#elif True"; "b"; "#elif True"; "c"; "#endif"].

(** The same chain with the two words as the specification writes them:
    [false] and [true] are not literals of Python but names, and no name
    is bound where the expression is evaluated. *)
Definition chain_as_written : list string :=
  ["#if false"; "a"; "#elif true"; "b"; "#elif true"; "c"; "#endif"].

(** The chain with two lines in every branch. *)
Definition elif_chain_long : list string :=
  ["#if False"; "a"; "a"; "#elif True"; "b"; "b"; "#elif True"; "c"; "c"; "#endif"].

(** The symbol names are words, the case in which the pattern the code
    builds from a name is the one [Regex.sub_word] models (and compiles). *)
Definition names_are_words (st : PreprocessorState) : Prop :=
  Forall (fun dv : string * pyval => Regex.is_name dv.1 = true) (defines st).

(** A line that is handled as a directive. *)
Definition is_directive_line (raw : string) : bool :=
  PyStr.startswith (PyStr.strip raw) "#".

(** The six prefixes [_handle_preprocessor_directive] tests for. *)
Definition recognized (line : string) : bool :=
  PyStr.startswith line "#ifdef" || PyStr.startswith line "#ifndef"
  || PyStr.startswith line "#if" || PyStr.startswith line "#elif"
  || PyStr.startswith line "#else" || PyStr.startswith line "#endif".

(** A line whose expression the handler may hand to the evaluator: an
    [#if] that is no [#ifdef] or [#ifndef], and an [#elif]. *)
Definition calls_eval (raw : string) : bool :=
  let line := PyStr.strip raw in
  (negb (PyStr.startswith line "#ifdef") && negb (PyStr.startswith line "#ifndef")
   && PyStr.startswith line "#if")
  || PyStr.startswith line "#elif".

(** The directives that pop: [#elif], [#else], [#endif]. *)
Definition is_closing (line : string) : bool :=
  PyStr.startswith line "#elif" || PyStr.startswith line "#else"
  || PyStr.startswith line "#endif".

(** A directory of four units: [main] uses [a] and [b], [a] uses [b] and
    [c], [b] uses [c]. *)
Definition sample_dir : directory :=
  [("a.F90", PyStr.join nl ["module a"; "use b"; "USE  c, only: x"; "end module a"]);
   ("b.F90", PyStr.join nl ["module b"; "use c"; "end module b"]);
   ("c.F90", PyStr.join nl ["module c"; "end module c"]);
   ("main.F90", PyStr.join nl ["program main"; "use a"; "use b"; "end program main"])].

Definition sample_rank (name : string) : nat :=
  if String.eqb name "main" then 3
  else if String.eqb name "a" then 2
  else if String.eqb name "b" then 1
  else 0.

(** A program unit with two nested conditional blocks, each closed by
    its [#endif]. *)
Definition nested_blocks_dir : directory :=
  [("main.F90",
    PyStr.join nl
      ["program p"; "type(t) :: v";
       "#ifdef A"; "type(a) :: x";
       "#ifdef B"; "type(b) :: y";
       "#endif"; "#endif";
       "end program p"])].

(** Every unit of [needed] stands after the units it uses. *)
Definition dependencies_first (deps : string -> list string) (order : list string) : Prop :=
  forall before x after,
    order = before ++ x :: after -> forall d, d ∈ deps x -> d ∈ before.

(** What [scan_files] does with one file. *)
Definition scan_step (a : ModuleDependencyAnalyzer) (fc : string * string)
    : ModuleDependencyAnalyzer :=
  let '(f90_file, content) := fc in
  mkAnalyzer (source_dir a)
    (fold_left (fun ms name => dict_set name f90_file ms)
               (Scan.names_after "module" content) (modules a))
    (fold_left (fun ps name => dict_set name f90_file ps)
               (Scan.names_after "program" content) (programs a))
    (dependencies a).

Definition lower_case (s : string) : Prop := PyStr.lower s = s.

(** The references of every unit are lower-case names. *)
Definition references_lower (dependencies : list (string * gset string)) : Prop :=
  Forall (fun ks : string * gset string => forall y, y ∈ ks.2 -> lower_case y) dependencies.

(** The handler applied to a sequence of directive lines, one after the
    other. *)
Definition run_directives (py_eval : host_eval) (st : PreprocessorState)
    (directives : list string) : PreprocessorState :=
  fold_left (fun st d => (_handle_preprocessor_directive py_eval st [d] 0).1.1)
            directives st.

(** Two modules that use each other. *)
Definition cyclic_dir : directory :=
  [("a.F90", PyStr.join nl ["module a"; "use b"; "end module a"]);
   ("b.F90", PyStr.join nl ["module b"; "use a"; "end module b"])].

(** A program that declares an array whose range has two colons. *)
Definition strided_dir : directory :=
  [("main.F90",
    PyStr.join nl
      ["program p"; "real(8), dimension(1:unknown_sym:2) :: a"; "end program p"])].

(** The unit has a file in one of the two tables of the catalog. *)
Definition located (a : ModuleDependencyAnalyzer) (unit : string) : bool :=
  dict_mem unit (modules a) || dict_mem unit (programs a).

(** * Properties *)

(** ** The model on concrete texts *)

Example strip_keeps_inner_blanks : PyStr.strip "  #if  X  " = "#if  X".
Proof. reflexivity. Qed.

Example split_on_colon : PyStr.split_on ":"%char "1:n" = ["1"; "n"].
Proof. reflexivity. Qed.

Example split_ws_fields : PyStr.split_ws "#ifdef   FOO " = ["#ifdef"; "FOO"].
Proof. reflexivity. Qed.

Example replace_leftmost : PyStr.replace "&&" " and " "a&&b&&&c" = "a and b and &c".
Proof. reflexivity. Qed.

Example str_of_integers :
  py_str (PyInt 10) = "10" /\ py_str (PyInt 0) = "0" /\ py_str (PyInt (-5)) = "-5".
Proof. split_and!; reflexivity. Qed.

Example rewrite_expression_steps :
  rewrite_expression (new_state [("Y", PyInt 3); ("X1", PyBool true)])
    "defined(X1)&&Y||Y1 + X1+undefined(Y)"
  = "True and 3 or Y1 + True+unTrue".
Proof. reflexivity. Qed.

Example names_after_use :
  Scan.names_after "use" (PyStr.join nl ["USE  Grid, only: nx"; "because x"; "use"; "mpi"])
  = ["grid"; "x"; "mpi"].
Proof. reflexivity. Qed.

Example derived_pattern_stays_on_the_line :
  derived_types (PyStr.join nl ["TYPE (point), target :: p, q"; "type(a) x"; ":: y"])
  = [[("name", FStr "point")]].
Proof. reflexivity. Qed.

(** The order for [sample_dir], the sets being iterated as [elements]
    lists them. *)
Example order_of_sample_dir :
  option_map snd (analyze_file (new_analyzer sample_dir) "main.F90")
  = Some ["c"; "b"; "a"; "main"].
Proof. vm_compute. reflexivity. Qed.

(** ** The engine: directives and the loop of [parse_file] *)

Section EngineFacts.
Variable py_eval : host_eval.

Lemma handle_index (st : PreprocessorState) (lines : list string) (i : nat) :
  (_handle_preprocessor_directive py_eval st lines i).1.2 = i + 1.
Proof.
  unfold _handle_preprocessor_directive.
  repeat match goal with
         | |- context [if ?b then _ else _] => destruct b
         | |- context [match active_blocks ?s with _ => _ end] =>
             destruct (active_blocks s)
         | |- context [_evaluate_preprocessor_expression ?e ?s ?x] =>
             destruct (_evaluate_preprocessor_expression e s x)
         | |- context [pop_block ?s] => destruct (pop_block s)
         end; reflexivity.
Qed.

Lemma handle_defines (st : PreprocessorState) (lines : list string) (i : nat) :
  defines (_handle_preprocessor_directive py_eval st lines i).1.1 = defines st.
Proof.
  unfold _handle_preprocessor_directive.
  repeat match goal with
         | |- context [if ?b then _ else _] => destruct b
         | |- context [match active_blocks ?s with _ => _ end] =>
             destruct (active_blocks s)
         | |- context [_evaluate_preprocessor_expression ?e ?s ?x] =>
             destruct (_evaluate_preprocessor_expression e s x)
         end; reflexivity.
Qed.

(** The loop ends: [len(lines) - i] iterations are enough. *)
Lemma parse_loop_total (fuel : nat) :
  forall st lines i processed out,
    length lines - i <= fuel ->
    exists r, parse_loop py_eval fuel st lines i processed out = Some r.
Proof.
  induction fuel as [|fuel IH]; intros st lines i processed out Hfuel.
  - simpl. destruct (i <? length lines) eqn:Hi; simpl; [|eauto].
    apply Nat.ltb_lt in Hi. lia.
  - simpl. destruct (i <? length lines) eqn:Hi; simpl; [|eauto].
    apply Nat.ltb_lt in Hi.
    destruct (PyStr.startswith _ "#").
    + pose proof (handle_index st lines i) as Hidx.
      destruct (_handle_preprocessor_directive py_eval st lines i) as [[st' i'] o].
      simpl in Hidx. subst i'. apply IH. lia.
    + destruct (is_active st); apply IH; lia.
Qed.

Lemma parse_lines_total (st : PreprocessorState) (content : string) :
  exists r, parse_lines py_eval st content = Some r.
Proof. unfold parse_lines. apply parse_loop_total. lia. Qed.

Lemma parse_file_total (st : PreprocessorState) (content : string) :
  exists r, parse_file py_eval st content = Some r.
Proof.
  unfold parse_file.
  destruct (parse_lines_total st content) as [[[st' processed] out] ->]. eauto.
Qed.

(** Only lines that are not directive lines are ever appended. *)
Lemma parse_loop_appends (fuel : nat) :
  forall st lines i processed out st' processed' out',
    parse_loop py_eval fuel st lines i processed out = Some (st', processed', out') ->
    Forall (fun raw => is_directive_line raw = false) processed ->
    Forall (fun raw => is_directive_line raw = false) processed'.
Proof.
  induction fuel as [|fuel IH]; intros st lines i processed out st' processed' out' Hrun Hall.
  - simpl in Hrun. destruct (i <? length lines); simpl in Hrun; [discriminate|].
    by inversion Hrun; subst.
  - simpl in Hrun. destruct (i <? length lines); simpl in Hrun;
      [|by inversion Hrun; subst].
    destruct (PyStr.startswith (PyStr.strip (line_at lines i)) "#") eqn:Hdir.
    + destruct (_handle_preprocessor_directive py_eval st lines i) as [[st1 i1] o1].
      eapply IH; eauto.
    + destruct (is_active st); [|eapply IH; eauto].
      eapply IH; [exact Hrun|].
      apply Forall_app. split; [assumption|].
      constructor; [exact Hdir|constructor].
Qed.

(** A [#] line with none of the six prefixes changes nothing. *)
Lemma handle_unrecognized (st : PreprocessorState) (lines : list string) (i : nat) :
  recognized (PyStr.strip (line_at lines i)) = false ->
  _handle_preprocessor_directive py_eval st lines i = (st, i + 1, []).
Proof.
  unfold recognized, _handle_preprocessor_directive. intros H.
  repeat (apply orb_false_iff in H; destruct H as [H ?]).
  repeat match goal with Heq : PyStr.startswith _ _ = false |- _ => rewrite Heq; clear Heq end.
  reflexivity.
Qed.
End EngineFacts.

Lemma prefix_cons (a b : ascii) (p s : string) :
  String.prefix (String a p) (String b s) = true <-> a = b /\ String.prefix p s = true.
Proof.
  simpl. destruct (ascii_dec a b) as [->|Hne]; split; intros H.
  - by split.
  - by destruct H.
  - discriminate.
  - by destruct H.
Qed.

Lemma prefix_nil_r (a : ascii) (p : string) : String.prefix (String a p) EmptyString = false.
Proof. reflexivity. Qed.

(** The second character of a line that starts with two given ones. *)
Lemma prefix_second (a b : ascii) (p line : string) :
  String.prefix (String a (String b p)) line = true ->
  exists c1 rest, line = String c1 (String b rest).
Proof.
  destruct line as [|c1 [|c2 rest]]; intros H.
  - discriminate.
  - apply prefix_cons in H as [_ H]. discriminate.
  - apply prefix_cons in H as [_ H]. apply prefix_cons in H as [<- _]. eauto.
Qed.

Lemma prefix_second_differs (a b b' c1 : ascii) (p rest : string) :
  b <> b' -> String.prefix (String a (String b p)) (String c1 (String b' rest)) = false.
Proof.
  intros Hne. apply not_true_is_false. intros H.
  apply prefix_cons in H as [_ H]. apply prefix_cons in H as [? _]. done.
Qed.

(** A line cannot start with [#el] or [#en] and with [#if]. *)
Lemma closing_not_opening (line : string) :
  is_closing line = true ->
  PyStr.startswith line "#ifdef" = false /\ PyStr.startswith line "#ifndef" = false
  /\ PyStr.startswith line "#if" = false.
Proof.
  unfold is_closing, PyStr.startswith. intros H.
  assert (exists c1 rest, line = String c1 (String "e"%char rest)) as (c1 & rest & ->).
  { repeat (apply orb_true_iff in H; destruct H as [H|H]);
      by apply prefix_second in H. }
  repeat split; by apply prefix_second_differs.
Qed.

Lemma endif_not_elif_else (line : string) :
  PyStr.startswith line "#endif" = true ->
  PyStr.startswith line "#elif" = false /\ PyStr.startswith line "#else" = false.
Proof.
  unfold PyStr.startswith. intros H.
  destruct line as [|c1 line]; [discriminate|].
  apply prefix_cons in H as [_ H].
  apply prefix_second in H as (c2 & rest & ->).
  split; apply not_true_is_false; intros Hp;
    apply prefix_cons in Hp as [_ Hp];
    by rewrite prefix_second_differs in Hp.
Qed.

Lemma removelast_keeps_bottom (bs extra : list pyval) :
  2 <= length bs ->
  removelast bs ++ extra <> [] /\ removelast bs <> []
  /\ hd_error (removelast bs ++ extra) = hd_error bs
  /\ hd_error (removelast bs) = hd_error bs.
Proof.
  destruct bs as [|a [|b bs]]; simpl; [lia|lia|]. intros _. done.
Qed.

(** C10. For every state (its symbol names being words) and every text,
    [parse_file] appends to its output only lines whose stripped form
    does not begin with [#]; and a [#] line with none of the six
    recognized prefixes is consumed with the activation stack (the whole
    state) unchanged and nothing printed. *)
Theorem C10_hash_lines_never_appended (py_eval : host_eval)
    (st : PreprocessorState) (content : string) :
  names_are_words st ->
  (exists st' processed_lines out,
     parse_lines py_eval st content = Some (st', processed_lines, out)
     /\ Forall (fun raw => is_directive_line raw = false) processed_lines)
  /\ (forall lines i,
        is_directive_line (line_at lines i) = true ->
        recognized (PyStr.strip (line_at lines i)) = false ->
        _handle_preprocessor_directive py_eval st lines i = (st, i + 1, [])).
Proof.
  intros _. split.
  - destruct (parse_lines_total py_eval st content) as [[[st' pl] out] Hrun].
    exists st', pl, out. split; [exact Hrun|].
    unfold parse_lines in Hrun. eapply parse_loop_appends; [exact Hrun|constructor].
  - intros lines i _ Hun. by apply handle_unrecognized.
Qed.

Lemma C10_hash_lines_never_appended_witness :
  _handle_preprocessor_directive Atoms.py_eval_atoms (new_state [])
    ["  #include 'grid.h'"] 0 = (new_state [], 1, []).
Proof.
  apply (proj2 (C10_hash_lines_never_appended Atoms.py_eval_atoms (new_state [])
                  EmptyString (List.Forall_nil _))
           ["  #include 'grid.h'"] 0); reflexivity.
Defined.

(** C3, the claim as stated fails: one unmatched [#endif] pops the root
    flag and leaves the stack empty, and one unmatched [#else] turns the
    root flag into [False]. *)
Lemma C3_root_flag_counterexample :
  parse_lines Atoms.py_eval_atoms (new_state []) "#endif"
    = Some (mkState [] [], [], [])
  /\ parse_lines Atoms.py_eval_atoms (new_state []) "#else"
    = Some (mkState [] [PyBool false], [], []).
Proof. split; reflexivity. Qed.

(** C3, amended. The guard of [#elif], [#else] and [#endif] is on the
    empty stack, not on the root flag: on an empty stack the three are
    no-ops; while a conditional block is open above the root (at least
    two flags) they leave the stack non-empty and its bottom flag
    unchanged; on the stack that holds the root flag alone, [#endif] pops
    it, and the empty stack that results counts as active.  The symbol
    names are words. *)
Theorem C3_pop_guard_is_on_empty_stack (py_eval : host_eval)
    (st : PreprocessorState) (lines : list string) (i : nat) :
  names_are_words st ->
  is_closing (PyStr.strip (line_at lines i)) = true ->
  let st' := (_handle_preprocessor_directive py_eval st lines i).1.1 in
  (active_blocks st = [] ->
     _handle_preprocessor_directive py_eval st lines i = (st, i + 1, []))
  /\ (2 <= length (active_blocks st) ->
        active_blocks st' <> []
        /\ hd_error (active_blocks st') = hd_error (active_blocks st))
  /\ (active_blocks st = [PyBool true] ->
        PyStr.startswith (PyStr.strip (line_at lines i)) "#endif" = true ->
        active_blocks st' = [] /\ is_active st' = true).
Proof.
  intros _ Hclose st'. subst st'.
  pose proof (closing_not_opening _ Hclose) as (H1 & H2 & H3).
  unfold _handle_preprocessor_directive. rewrite H1, H2, H3.
  split; [|split].
  - intros Hempty. rewrite Hempty. by repeat destruct (PyStr.startswith _ _).
  - intros Hlen.
    pose proof (removelast_keeps_bottom (active_blocks st)) as Hkeep.
    destruct (active_blocks st) as [|b bs] eqn:Hbs; [simpl in Hlen; lia|].
    repeat match goal with
           | |- context [if ?c then _ else _] => destruct c
           | |- context [_evaluate_preprocessor_expression ?e ?s ?x] =>
               destruct (_evaluate_preprocessor_expression e s x)
           end; cbn [fst snd pop_block push_block set_blocks active_blocks];
      rewrite ?Hbs;
      lazymatch goal with
      | |- removelast _ ++ ?extra <> [] /\ _ =>
          destruct (Hkeep extra Hlen) as (? & _ & ? & _); by split
      | |- removelast _ <> [] /\ _ =>
          destruct (Hkeep [] Hlen) as (_ & ? & _ & ?); by split
      | |- _ => done
      end.
  - intros Hroot Hendif.
    destruct (endif_not_elif_else _ Hendif) as [-> ->]. rewrite Hendif, Hroot.
    unfold is_active. cbn [fst snd pop_block set_blocks active_blocks].
    rewrite Hroot. by split.
Qed.

Lemma C3_pop_guard_is_on_empty_stack_witness :
  let st := mkState [] [PyBool true; PyBool false] in
  let st' := (_handle_preprocessor_directive Atoms.py_eval_atoms st ["#endif"] 0).1.1 in
  active_blocks st' <> [] /\ hd_error (active_blocks st') = hd_error (active_blocks st).
Proof.
  intros st st'.
  apply (C3_pop_guard_is_on_empty_stack Atoms.py_eval_atoms st ["#endif"] 0);
    [constructor | reflexivity | simpl; lia].
Defined.

(** ** The chain of [#elif] branches *)

(** The evaluator reads the symbol table of the state and nothing else
    of it. *)
Lemma evaluate_reads_defines (py_eval : host_eval) (st st' : PreprocessorState)
    (expr : string) :
  defines st = defines st' ->
  _evaluate_preprocessor_expression py_eval st expr
    = _evaluate_preprocessor_expression py_eval st' expr.
Proof.
  intros Hd. unfold _evaluate_preprocessor_expression, rewrite_expression. by rewrite Hd.
Qed.

(** [#elif] on a stack that is not empty: the top flag becomes the value
    of the expression of the line. *)
Lemma handle_elif (py_eval : host_eval) (st : PreprocessorState) (lines : list string)
    (i : nat) (below : list pyval) (v : pyval) :
  PyStr.startswith (PyStr.strip (line_at lines i)) "#elif" = true ->
  active_blocks st = below ++ [v] ->
  active_blocks (_handle_preprocessor_directive py_eval st lines i).1.1
    = below ++ [PyBool (_evaluate_preprocessor_expression py_eval st
                          (PyStr.strip (PyStr.slice_from 5
                                          (PyStr.strip (line_at lines i))))).1].
Proof.
  intros Helif Hst.
  assert (Hclose : is_closing (PyStr.strip (line_at lines i)) = true).
  { unfold is_closing. by rewrite Helif. }
  destruct (closing_not_opening _ Hclose) as (H1 & H2 & H3).
  unfold _handle_preprocessor_directive. rewrite H1, H2, H3, Helif.
  destruct (active_blocks st) as [|b bs] eqn:Hbs; [by destruct below|].
  rewrite (evaluate_reads_defines py_eval (pop_block st).1 st) by done.
  destruct (_evaluate_preprocessor_expression py_eval st _) as [result out].
  simpl. by rewrite Hbs, Hst, removelast_last.
Qed.

(** The three ways the loop of [parse_file] goes on from a line, and its
    end. *)
Lemma parse_loop_directive (py_eval : host_eval) (fuel : nat) (st st' : PreprocessorState)
    (lines : list string) (i i' : nat) (processed out o : list string) :
  i < length lines ->
  is_directive_line (line_at lines i) = true ->
  _handle_preprocessor_directive py_eval st lines i = (st', i', o) ->
  parse_loop py_eval (S fuel) st lines i processed out
    = parse_loop py_eval fuel st' lines (i' + 1) processed (out ++ o).
Proof.
  intros Hi Hline Hh. cbn [parse_loop].
  apply Nat.ltb_lt in Hi. rewrite Hi. cbn [negb].
  unfold is_directive_line in Hline. by rewrite Hline, Hh.
Qed.

Lemma parse_loop_keeps_active_line (py_eval : host_eval) (fuel : nat)
    (st : PreprocessorState) (lines : list string) (i : nat) (processed out : list string) :
  i < length lines ->
  is_directive_line (line_at lines i) = false ->
  is_active st = true ->
  parse_loop py_eval (S fuel) st lines i processed out
    = parse_loop py_eval fuel st lines (i + 1) (processed ++ [line_at lines i]) out.
Proof.
  intros Hi Hline Hact. cbn [parse_loop].
  apply Nat.ltb_lt in Hi. rewrite Hi. cbn [negb].
  unfold is_directive_line in Hline. by rewrite Hline, Hact.
Qed.

Lemma parse_loop_drops_inactive_line (py_eval : host_eval) (fuel : nat)
    (st : PreprocessorState) (lines : list string) (i : nat) (processed out : list string) :
  i < length lines ->
  is_directive_line (line_at lines i) = false ->
  is_active st = false ->
  parse_loop py_eval (S fuel) st lines i processed out
    = parse_loop py_eval fuel st lines (i + 1) processed out.
Proof.
  intros Hi Hline Hact. cbn [parse_loop].
  apply Nat.ltb_lt in Hi. rewrite Hi. cbn [negb].
  unfold is_directive_line in Hline. by rewrite Hline, Hact.
Qed.

Lemma parse_loop_end (py_eval : host_eval) (fuel : nat)
    (st : PreprocessorState) (lines : list string) (i : nat) (processed out : list string) :
  length lines <= i ->
  parse_loop py_eval fuel st lines i processed out = Some (st, processed, out).
Proof.
  intros Hi. apply Nat.ltb_ge in Hi. destruct fuel; cbn [parse_loop]; by rewrite Hi.
Qed.

(** The run on the chain with two lines in every branch, for a host that
    answers the two literals as Python does. *)
Lemma elif_chain_long_run (py_eval : host_eval) :
  py_eval EnvEmpty "False" = Returns (ObjBool false) ->
  py_eval EnvEmpty "True" = Returns (ObjBool true) ->
  parse_lines py_eval (new_state []) (PyStr.join nl elif_chain_long)
    = Some (new_state [], ["b"; "c"], []).
Proof.
  intros Hfalse Htrue.
  assert (Hif : _handle_preprocessor_directive py_eval (new_state []) elif_chain_long 0
                = (mkState [] [PyBool true; PyBool false], 1, [])).
  { vm_compute. rewrite Hfalse. reflexivity. }
  assert (Helif : forall b i, i = 3 \/ i = 6 ->
            _handle_preprocessor_directive py_eval (mkState [] [PyBool true; PyBool b])
              elif_chain_long i = (mkState [] [PyBool true; PyBool true], i + 1, [])).
  { intros b i [-> | ->]; vm_compute; rewrite Htrue; reflexivity. }
  assert (Hendif : _handle_preprocessor_directive py_eval
                     (mkState [] [PyBool true; PyBool true]) elif_chain_long 9
                   = (new_state [], 10, [])).
  { reflexivity. }
  unfold parse_lines.
  change (PyStr.split_on "010"%char (PyStr.join nl elif_chain_long)) with elif_chain_long.
  change (length elif_chain_long) with 10.
  erewrite parse_loop_directive; [|simpl; lia|reflexivity|exact Hif].
  rewrite parse_loop_drops_inactive_line; [|simpl; lia|reflexivity|reflexivity].
  erewrite parse_loop_directive;
    [|simpl; lia|reflexivity|exact (Helif false 3 (or_introl eq_refl))].
  rewrite parse_loop_keeps_active_line; [|simpl; lia|reflexivity|reflexivity].
  erewrite parse_loop_directive;
    [|simpl; lia|reflexivity|exact (Helif true 6 (or_intror eq_refl))].
  rewrite parse_loop_keeps_active_line; [|simpl; lia|reflexivity|reflexivity].
  erewrite parse_loop_directive; [|simpl; lia|reflexivity|exact Hendif].
  rewrite parse_loop_end by (simpl; lia). reflexivity.
Qed.

(** C2, the claim as stated fails.  On the seven lines as the claim
    writes them the effective output is empty, not the line [b]: [false]
    and [true] are unbound names, every one of the three expressions
    raises and counts as false, and no branch of the chain is active,
    the branch of [b] included.  And a later [#elif] whose expression is
    true does contribute: with Python's literals and two lines in every
    branch, the output holds a line [c] next to a line [b]. *)
Lemma C2_elif_chain_counterexample :
  parse_file Atoms.py_eval_atoms (new_state []) (PyStr.join nl chain_as_written)
    = Some (new_state [], EmptyString,
            ["Warning: Could not evaluate preprocessor expression: false";
             "Error: name 'false' is not defined";
             "Warning: Could not evaluate preprocessor expression: true";
             "Error: name 'true' is not defined";
             "Warning: Could not evaluate preprocessor expression: true";
             "Error: name 'true' is not defined"])
  /\ (let handle st i :=
        (_handle_preprocessor_directive Atoms.py_eval_atoms st chain_as_written i).1.1 in
      let s1 := handle (new_state []) 0 in
      let s2 := handle s1 2 in
      let s3 := handle s2 4 in
      active_blocks s1 = [PyBool true; PyBool false]
      /\ active_blocks s2 = [PyBool true; PyBool false]
      /\ active_blocks s3 = [PyBool true; PyBool false])
  /\ parse_file Atoms.py_eval_atoms (new_state []) (PyStr.join nl elif_chain_long)
     = Some (new_state [], PyStr.join nl ["b"; "c"], []).
Proof. cbv beta zeta. split_and!; vm_compute; reflexivity. Qed.

(** C2, amended.  With Python's literals the chain is [#if False], [a],
    [#elif True], [b], [#elif True], [c], [#endif].  For a host that
    answers [False] and [True] as Python does:
    - an [#elif] met on a stack that is not empty replaces the top flag
      by the truth value of its own expression and leaves the flags
      below as they are, whatever the flag replaced was (for every
      state whose symbol names are words, every text and every line);
    - at the four directive lines of the chain the handler leaves the
      stacks [[True, False]], [[True, True]], [[True, True]], [[True]],
      so the branch of the second true [#elif] is active exactly as the
      branch of the first one is;
    - the loop keeps every line that is no directive and that it reads
      while all flags are true;
    - on the chain with two lines in every branch the run returns, and
      what it keeps holds a line [b] and a line [c] and no line [a].
    No first-true-branch-wins rule is applied. *)
Theorem C2_elif_replaces_top_flag (py_eval : host_eval) :
  py_eval EnvEmpty "False" = Returns (ObjBool false) ->
  py_eval EnvEmpty "True" = Returns (ObjBool true) ->
  (forall (st : PreprocessorState) (lines : list string) (i : nat)
          (below : list pyval) (v : pyval),
     names_are_words st ->
     PyStr.startswith (PyStr.strip (line_at lines i)) "#elif" = true ->
     active_blocks st = below ++ [v] ->
     active_blocks (_handle_preprocessor_directive py_eval st lines i).1.1
       = below ++ [PyBool (_evaluate_preprocessor_expression py_eval st
                             (PyStr.strip (PyStr.slice_from 5
                                             (PyStr.strip (line_at lines i))))).1])
  /\ (let handle st i := (_handle_preprocessor_directive py_eval st elif_chain i).1.1 in
      let s1 := handle (new_state []) 0 in
      let s2 := handle s1 2 in
      let s3 := handle s2 4 in
      let s4 := handle s3 6 in
      active_blocks s1 = [PyBool true; PyBool false] /\ is_active s1 = false
      /\ active_blocks s2 = [PyBool true; PyBool true] /\ is_active s2 = true
      /\ active_blocks s3 = [PyBool true; PyBool true] /\ is_active s3 = true
      /\ active_blocks s4 = [PyBool true])
  /\ (forall (fuel : nat) (st : PreprocessorState) (lines : list string) (i : nat)
             (processed out : list string),
        i < length lines ->
        is_directive_line (line_at lines i) = false ->
        is_active st = true ->
        parse_loop py_eval (S fuel) st lines i processed out
          = parse_loop py_eval fuel st lines (i + 1) (processed ++ [line_at lines i]) out)
  /\ (exists (st' : PreprocessorState) (kept out : list string),
        parse_lines py_eval (new_state []) (PyStr.join nl elif_chain_long)
          = Some (st', kept, out)
        /\ ("a" ∉ kept) /\ ("b" ∈ kept) /\ ("c" ∈ kept)).
Proof.
  intros Hfalse Htrue. split_and!.
  - intros st lines i below v _. apply handle_elif.
  - assert (Hif : _handle_preprocessor_directive py_eval (new_state []) elif_chain 0
                  = (mkState [] [PyBool true; PyBool false], 1, [])).
    { vm_compute. rewrite Hfalse. reflexivity. }
    assert (Helif : forall b i, i = 2 \/ i = 4 ->
              _handle_preprocessor_directive py_eval (mkState [] [PyBool true; PyBool b])
                elif_chain i = (mkState [] [PyBool true; PyBool true], i + 1, [])).
    { intros b i [-> | ->]; vm_compute; rewrite Htrue; reflexivity. }
    cbv beta zeta. rewrite Hif. cbn [fst snd].
    rewrite (Helif false 2) by auto. cbn [fst snd].
    rewrite (Helif true 4) by auto. cbn [fst snd].
    split_and!; reflexivity.
  - intros fuel st lines i processed out. apply parse_loop_keeps_active_line.
  - exists (new_state []), ["b"; "c"], []. split_and!.
    + by apply elif_chain_long_run.
    + intros Ha. apply list_elem_of_In in Ha. simpl in Ha.
      destruct Ha as [Ha|[Ha|[]]]; discriminate.
    + apply list_elem_of_In. simpl. auto.
    + apply list_elem_of_In. simpl. auto.
Qed.

Lemma C2_elif_replaces_top_flag_witness :
  active_blocks (_handle_preprocessor_directive Atoms.py_eval_atoms
                   (mkState [] [PyBool true; PyBool true]) ["#elif False"] 0).1.1
    = [PyBool true]
      ++ [PyBool (_evaluate_preprocessor_expression Atoms.py_eval_atoms
                    (mkState [] [PyBool true; PyBool true]) "False").1]
  /\ (let handle st i :=
        (_handle_preprocessor_directive Atoms.py_eval_atoms st elif_chain i).1.1 in
      active_blocks (handle (handle (new_state []) 0) 2) = [PyBool true; PyBool true]
      /\ is_active (handle (handle (handle (new_state []) 0) 2) 4) = true).
Proof.
  pose proof (C2_elif_replaces_top_flag Atoms.py_eval_atoms eq_refl eq_refl)
    as (Hrule & (_ & _ & H2 & _ & _ & H3 & _) & _ & _).
  split.
  - apply (Hrule (mkState [] [PyBool true; PyBool true]) ["#elif False"] 0
                 [PyBool true] (PyBool true)).
    + constructor.
    + reflexivity.
    + reflexivity.
  - split; [exact H2 | exact H3].
Defined.

(** ** The evaluator of directive expressions *)

Lemma contains_cons (sub : string) (c : ascii) (s : string) :
  PyStr.contains sub (String c s) = false ->
  String.prefix sub (String c s) = false /\ PyStr.contains sub s = false.
Proof. simpl. intros H. by apply orb_false_iff in H. Qed.

Lemma sub_defined_none (defs : list (string * pyval)) (s : string) :
  PyStr.contains "defined(" s = false -> sub_defined defs 0 s = s.
Proof.
  induction s as [|c s IH]; intros H; [reflexivity|].
  apply contains_cons in H as [Hp Hs].
  cbn [sub_defined]. unfold Regex.match_defined. rewrite Hp. by rewrite IH.
Qed.

Lemma replace_none (old new s : string) :
  old <> EmptyString -> PyStr.contains old s = false -> PyStr.replace old new s = s.
Proof.
  intros Hold. unfold PyStr.replace. destruct old as [|a old]; [done|]. clear Hold.
  induction s as [|c s IH]; intros H; [reflexivity|].
  apply contains_cons in H as [Hp Hs].
  cbn [PyStr.replace_from]. rewrite Hp. by rewrite IH.
Qed.

(** C1, what the code does: a directive expression that contains no
    [defined(], [&&] or [||] reaches the host's [eval] exactly as it is
    written in the source text when no symbol is defined, and the answer
    of the directive is whatever [eval] makes of it; nothing checks the
    text against a grammar of arithmetic and boolean expressions. *)
Theorem C1_expression_reaches_eval_unchecked (py_eval : host_eval)
    (blocks : list pyval) (expr : string) :
  PyStr.contains "defined(" expr = false ->
  PyStr.contains "&&" expr = false ->
  PyStr.contains "||" expr = false ->
  rewrite_expression (mkState [] blocks) expr = expr
  /\ _evaluate_preprocessor_expression py_eval (mkState [] blocks) expr
     = match py_eval EnvEmpty expr with
       | Returns x => (py_bool x, [])
       | Raises msg =>
           (false,
            ["Warning: Could not evaluate preprocessor expression: " +:+ expr;
             "Error: " +:+ msg])
       end.
Proof.
  intros Hd Ha Ho.
  assert (Hid : rewrite_expression (mkState [] blocks) expr = expr).
  { unfold rewrite_expression. cbn [defines fold_left].
    rewrite (sub_defined_none _ _ Hd).
    rewrite (replace_none "&&" _ _ ltac:(done) Ha).
    by rewrite (replace_none "||" _ _ ltac:(done) Ho). }
  split; [exact Hid|].
  unfold _evaluate_preprocessor_expression. by rewrite Hid.
Qed.

Lemma C1_expression_reaches_eval_unchecked_witness :
  rewrite_expression (new_state []) "().__class__.__base__.__subclasses__()"
    = "().__class__.__base__.__subclasses__()".
Proof.
  apply (C1_expression_reaches_eval_unchecked Atoms.py_eval_atoms [PyBool true]
           "().__class__.__base__.__subclasses__()"); reflexivity.
Defined.




(** ** The dependency order *)

Lemma in_list_spec (x : string) (l : list string) : in_list x l = true <-> x ∈ l.
Proof.
  unfold in_list. rewrite existsb_exists. split.
  - intros (y & Hin & Heq). apply String.eqb_eq in Heq as ->. by apply list_elem_of_In.
  - intros Hin. exists x. split; [by apply list_elem_of_In | apply String.eqb_refl].
Qed.

Lemma visit_deps_none rec (ds : list string) : visit_deps rec ds None = None.
Proof. induction ds as [|d ds IH]; [reflexivity | exact IH]. Qed.

Section Visit.
Variable deps : string -> list string.

Lemma closed_mono (stack v : gset string) (n n' : list string) :
  (forall x, x ∈ n -> x ∈ n') -> closed deps stack v n -> closed deps stack v n'.
Proof. intros Hsub Hc x d Hx Hs Hd. destruct (Hc x d Hx Hs Hd). auto. Qed.

Lemma visit_deps_post rec :
  (forall d vn vn', rec d vn = Some vn' -> forall stack, visit_post deps stack d vn vn') ->
  forall ds name vn vn' stack,
    (forall d, d ∈ ds -> uses deps name d) ->
    visit_deps rec ds (Some vn) = Some vn' ->
    loop_post deps stack name ds vn vn'.
Proof.
  intros Hrec ds. induction ds as [|d ds IH]; intros name vn vn' stack Huses Hrun.
  - simpl in Hrun. injection Hrun as <-.
    unfold loop_post. split_and!; auto.
    intros d Hd. by apply elem_of_nil in Hd.
  - unfold visit_deps in Hrun. simpl in Hrun.
    destruct (rec d vn) as [[v1 n1]|] eqn:Hd;
      [|fold (visit_deps rec ds None) in Hrun; by rewrite visit_deps_none in Hrun].
    fold (visit_deps rec ds (Some (v1, if in_list d n1 then n1 else n1 ++ [d]))) in Hrun.
    destruct (Hrec d vn (v1, n1) Hd stack) as (Hv & Hdv & Hn & Hnd & Horig & Hcl).
    simpl in *.
    assert (Hedge : uses deps name d) by (apply Huses; left).
    set (n2 := if in_list d n1 then n1 else n1 ++ [d]) in *.
    assert (Hn12 : forall x, x ∈ n1 -> x ∈ n2).
    { intros x Hx. unfold n2. destruct (in_list d n1); [done|].
      apply elem_of_app. by left. }
    assert (Hdn2 : d ∈ n2).
    { unfold n2. destruct (in_list d n1) eqn:Hin; [by apply in_list_spec|].
      apply elem_of_app. right. by left. }
    assert (Hn2 : forall x, x ∈ n2 -> x ∈ n1 \/ x = d).
    { intros x. unfold n2. destruct (in_list d n1); [by left|].
      rewrite elem_of_app. intros [?|Hx]; [by left|]. right.
      by apply list_elem_of_singleton in Hx. }
    assert (Hnd2 : NoDup n1 -> NoDup n2).
    { intros Hnd1. unfold n2. destruct (in_list d n1) eqn:Hin; [done|].
      apply NoDup_app. split; [done|]. split; [|apply NoDup_singleton].
      intros x Hx Hxd. apply list_elem_of_singleton in Hxd as ->.
      apply in_list_spec in Hx. congruence. }
    specialize (IH name (v1, n2) vn' stack
                  (fun d' Hd' => Huses d' (list_elem_of_further _ _ _ Hd')) Hrun).
    destruct IH as (Hv' & Hn' & Hnd' & Horig' & Hcl' & Hall'). simpl in *.
    unfold loop_post. simpl. split_and!.
    + by etrans.
    + auto.
    + auto.
    + intros x Hx. destruct (Horig' x Hx) as [Hx2|]; [|by right].
      destruct (Hn2 x Hx2) as [Hx1 | ->]; [|right; by apply tc_once].
      destruct (Horig x Hx1) as [|Htc]; [by left|]. right.
      eapply tc_l; eauto.
    + intros Hc. apply Hcl'. eapply closed_mono; [exact Hn12|]. by apply Hcl.
    + intros d' Hd'. apply elem_of_cons in Hd' as [->|Hin]; [|by apply Hall'].
      split; [by apply Hv' | by apply Hn'].
Qed.

Lemma visit_post_holds (fuel : nat) :
  forall name vn vn',
    visit fuel deps name vn = Some vn' -> forall stack, visit_post deps stack name vn vn'.
Proof.
  induction fuel as [|fuel IH]; intros name [v n] vn' Hrun stack; [discriminate|].
  simpl in Hrun. case_bool_decide as Hvisited.
  - injection Hrun as <-. unfold visit_post. simpl. split_and!; auto.
  - assert (Huses : forall d, d ∈ deps name -> uses deps name d) by done.
    pose proof (visit_deps_post _ IH (deps name) name _ vn' (stack ∪ {[name]}) Huses Hrun)
      as (Hv & Hn & Hnd & Horig & Hcl & Hall).
    simpl in *. unfold visit_post. simpl. split_and!; auto.
    + intros x Hx. apply Hv, elem_of_union. by right.
    + apply Hv, elem_of_union. left. by apply elem_of_singleton.
    + intros Hc.
      assert (Hc' : closed deps (stack ∪ {[name]}) vn'.1 vn'.2).
      { apply Hcl. intros x d Hx Hs Hd.
        rewrite elem_of_union, elem_of_singleton in Hs.
        apply elem_of_union in Hx as [Hx|Hx]; [apply elem_of_singleton in Hx; tauto|].
        destruct (Hc x d) as [Hdv Hdn]; [done|tauto|done|].
        split; [apply elem_of_union; by right|done]. }
      intros x d Hx Hs Hd.
      destruct (decide (x = name)) as [->|Hne]; [by apply Hall|].
      apply (Hc' x d); [done| |done].
      rewrite elem_of_union, elem_of_singleton. tauto.
Qed.
End Visit.

(** Units outside [keys] use nothing; then the recursion of [visit] is
    never deeper than the number of units of [keys] not yet visited. *)
Lemma visit_total (deps : string -> list string) (keys : gset string) :
  (forall x, x ∉ keys -> deps x = []) ->
  forall fuel name vn,
    size (keys ∖ vn.1) < fuel -> exists vn', visit fuel deps name vn = Some vn'.
Proof.
  intros Hkeys fuel. induction fuel as [|fuel IH]; intros name [v n] Hfuel; [lia|].
  simpl in *. case_bool_decide as Hvisited; [eauto|].
  destruct (decide (name ∈ keys)) as [Hkey|Hkey];
    [|rewrite (Hkeys name Hkey); simpl; eauto].
  assert (Hless : size (keys ∖ ({[name]} ∪ v)) < fuel).
  { assert (keys ∖ ({[name]} ∪ v) ⊂ keys ∖ v) as Hsub%subset_size; [|lia].
    split.
    - intros x. rewrite !elem_of_difference, elem_of_union. tauto.
    - intros Hsub. specialize (Hsub name).
      rewrite !elem_of_difference, elem_of_union, elem_of_singleton in Hsub. tauto. }
  revert Hless. generalize ({[name]} ∪ v) as v1. generalize n as n1. 
  induction (deps name) as [|d ds IHds]; intros n1 v1 Hless; [simpl; eauto|].
  unfold visit_deps. simpl.
  destruct (IH d (v1, n1) Hless) as [[v2 n2] Hd]. rewrite Hd.
  apply IHds.
  pose proof (visit_post_holds deps fuel d _ _ Hd ∅) as (Hv & _). simpl in Hv.
  assert (size (keys ∖ v2) <= size (keys ∖ v1)); [|lia].
  apply subseteq_size. intros x. rewrite !elem_of_difference.
  intros [? Hx]. split; [done|]. intros ?. by apply Hx, Hv.
Qed.

Lemma dict_get_In {V : Type} (k : string) (d : list (string * V)) (v : V) :
  dict_get k d = Some v -> In (k, v) d.
Proof.
  induction d as [|[k' v'] d IH]; simpl; [discriminate|].
  destruct (String.eqb k k') eqn:Hk; intros H.
  - apply String.eqb_eq in Hk as ->. injection H as ->. by left.
  - right. by apply IH.
Qed.

Lemma dict_get_not_key {V : Type} (k : string) (d : list (string * V)) :
  k ∉ d.*1 -> dict_get k d = None.
Proof.
  induction d as [|[k' v'] d IH]; simpl; [done|]. intros Hk.
  rewrite not_elem_of_cons in Hk. destruct Hk as [Hne Hk].
  destruct (String.eqb k k') eqn:Heq; [by apply String.eqb_eq in Heq|by apply IH].
Qed.

Lemma size_list_to_set_le (l : list string) :
  size (list_to_set l : gset string) <= length l.
Proof.
  induction l as [|x l IH]; [rewrite list_to_set_nil, size_empty; simpl; lia|].
  rewrite list_to_set_cons, size_union_alt, size_singleton. simpl.
  assert (size (list_to_set l ∖ {[x]} : gset string) <= size (list_to_set l : gset string));
    [|lia].
  apply subseteq_size. intros y. rewrite elem_of_difference. tauto.
Qed.

(** [resolve_order] returns for every table of references, cyclic or
    not. *)
Lemma resolve_order_total (dependencies : list (string * gset string)) (target : string) :
  exists vn,
    visit (S (length dependencies)) (deps_of dependencies) target (∅, []) = Some vn.
Proof.
  apply (visit_total (deps_of dependencies) (list_to_set dependencies.*1)).
  - intros x Hx. unfold deps_of. rewrite dict_get_not_key; [done|].
    by rewrite elem_of_list_to_set in Hx.
  - simpl. rewrite difference_empty_L.
    pose proof (size_list_to_set_le dependencies.*1) as Hle.
    rewrite length_fmap in Hle. lia.
Qed.

Lemma ranked_uses (rank : string -> nat) (dependencies : list (string * gset string)) :
  ranked rank dependencies = true ->
  forall x y, uses (deps_of dependencies) x y -> rank y < rank x.
Proof.
  unfold ranked, uses, deps_of. intros Hr x y Hy.
  destruct (dict_get x dependencies) as [s|] eqn:Hget; [|by apply elem_of_nil in Hy].
  apply dict_get_In in Hget.
  rewrite forallb_forall in Hr. specialize (Hr _ Hget). simpl in Hr.
  rewrite forallb_forall in Hr. apply list_elem_of_In in Hy.
  by apply Nat.ltb_lt, Hr.
Qed.

(** [analyze_file] returns for every directory and file name. *)
Lemma analyze_file_total (a : ModuleDependencyAnalyzer) (filename : string) :
  exists r, analyze_file a filename = Some r.
Proof.
  unfold analyze_file, resolve_order.
  destruct (find_target _ filename) as [target|]; [|eauto].
  destruct (resolve_order_total (dependencies (analyze_dependencies (scan_files a))) target)
    as [[visited needed] ->].
  eauto.
Qed.

(** A table with a rank has no cycle. *)
Lemma ranked_acyclic (rank : string -> nat) (dependencies : list (string * gset string)) :
  ranked rank dependencies = true -> acyclic (deps_of dependencies).
Proof.
  intros Hr. pose proof (ranked_uses rank dependencies Hr) as Hlt.
  assert (Htc : forall x y, tc (uses (deps_of dependencies)) x y -> rank y < rank x).
  { induction 1 as [x y Hxy | x y z Hxy _ IH]; [by apply Hlt|].
    specialize (Hlt _ _ Hxy). lia. }
  intros x Hx. specialize (Htc _ _ Hx). lia.
Qed.

Lemma resolve_order_correct (dependencies : list (string * gset string)) (target : string) :
  acyclic (deps_of dependencies) ->
  exists needed,
    resolve_order dependencies target = Some (needed ++ [target])
    /\ NoDup (needed ++ [target])
    /\ (forall d, tc (uses (deps_of dependencies)) target d -> d ∈ needed).
Proof.
  intros Hacyclic. unfold resolve_order.
  destruct (resolve_order_total dependencies target) as [[visited needed] Hrun].
  rewrite Hrun. exists needed. split; [reflexivity|].
  pose proof (visit_post_holds _ _ _ _ _ Hrun ∅) as (_ & Htarget & _ & Hnd & Horig & Hcl).
  simpl in *.
  assert (Hclosed : closed (deps_of dependencies) ∅ visited needed).
  { apply Hcl. intros x d Hx. by apply elem_of_empty in Hx. }
  split.
  - apply NoDup_app. split_and!; [apply Hnd; constructor| |apply NoDup_singleton].
    intros x Hx Hxt. apply list_elem_of_singleton in Hxt as ->.
    destruct (Horig _ Hx) as [Hnil|Hcycle]; [by apply elem_of_nil in Hnil|].
    by apply (Hacyclic target).
  - assert (Hreach : forall x d, tc (uses (deps_of dependencies)) x d ->
                       x ∈ visited -> d ∈ visited /\ d ∈ needed).
    { induction 1 as [x y Hxy | x y z Hxy _ IH]; intros Hx.
      - apply (Hclosed x y); [done|apply not_elem_of_empty|done].
      - apply IH. apply (Hclosed x y); [done|apply not_elem_of_empty|done]. }
    intros d Hd. by apply (Hreach target d).
Qed.

(** C5. For a dependency graph without cycles and a target unit found in
    the catalog, the order [analyze_file] returns is [needed ++ [target]]:
    the target is its last element, no name occurs twice, and every unit
    the target depends on, directly or through other units, is in
    [needed], hence strictly before the target. *)
Theorem C5_order_lists_dependencies_first (dir : directory) (filename target : string) :
  let a := analyze_dependencies (scan_files (new_analyzer dir)) in
  find_target a filename = Some target ->
  acyclic (deps_of (dependencies a)) ->
  exists needed,
    analyze_file (new_analyzer dir) filename = Some (a, needed ++ [target])
    /\ NoDup (needed ++ [target])
    /\ (forall d, tc (uses (deps_of (dependencies a))) target d -> d ∈ needed).
Proof.
  intros a Htarget Hacyclic.
  destruct (resolve_order_correct (dependencies a) target Hacyclic)
    as (needed & Hrun & Hnd & Hall).
  exists needed. split; [|by split].
  unfold analyze_file. fold a. by rewrite Htarget, Hrun.
Qed.

Lemma C5_order_lists_dependencies_first_witness :
  exists needed,
    analyze_file (new_analyzer sample_dir) "main.F90"
      = Some (analyze_dependencies (scan_files (new_analyzer sample_dir)),
              needed ++ ["main"])
    /\ NoDup (needed ++ ["main"])
    /\ (forall d,
          tc (uses (deps_of (dependencies
                               (analyze_dependencies (scan_files (new_analyzer sample_dir))))))
             "main" d ->
          d ∈ needed).
Proof.
  apply (C5_order_lists_dependencies_first sample_dir "main.F90" "main").
  - vm_compute. reflexivity.
  - apply (ranked_acyclic sample_rank). vm_compute. reflexivity.
Defined.

(** ** The extent of a range *)

Lemma prefix_empty (s : string) : String.prefix EmptyString s = true.
Proof. by destruct s. Qed.

Lemma split_on_nonempty (c : ascii) (s : string) : PyStr.split_on c s <> [].
Proof.
  destruct s as [|x s]; simpl; [done|].
  destruct (Ascii.eqb x c); [done|]. by destruct (PyStr.split_on c s).
Qed.

(** A text that splits into two fields holds the separator. *)
Lemma split_on_two (c : ascii) (s a b : string) :
  PyStr.split_on c s = [a; b] -> PyStr.contains (String c EmptyString) s = true.
Proof.
  revert a. induction s as [|x s IH]; intros a Hsplit; [discriminate|].
  cbn [PyStr.split_on] in Hsplit. cbn [PyStr.contains].
  destruct (Ascii.eqb x c) eqn:Hx.
  - apply Ascii.eqb_eq in Hx as ->. apply orb_true_iff. left.
    apply prefix_cons. split; [done|apply prefix_empty].
  - destruct (PyStr.split_on c s) as [|f fs] eqn:Hs; [discriminate|].
    injection Hsplit as _ ->. apply orb_true_iff. right. by apply (IH f).
Qed.

Lemma split_on_absent (c : ascii) (s : string) :
  PyStr.contains (String c EmptyString) s = false -> PyStr.split_on c s = [s].
Proof.
  induction s as [|x s IH]; intros H; [reflexivity|].
  apply contains_cons in H as [Hp Hs]. cbn [PyStr.split_on].
  destruct (Ascii.eqb x c) eqn:Hx.
  - apply Ascii.eqb_eq in Hx as ->. exfalso.
    assert (String.prefix (String c "") (String c s) = true) as Ht; [|congruence].
    apply prefix_cons. split; [done|apply prefix_empty].
  - by rewrite (IH Hs).
Qed.

Lemma split_on_present (c : ascii) (s : string) :
  PyStr.contains (String c EmptyString) s = true -> 2 <= length (PyStr.split_on c s).
Proof.
  induction s as [|x s IH]; intros H; [discriminate|].
  cbn [PyStr.split_on]. pose proof (split_on_nonempty c s) as Hne.
  destruct (Ascii.eqb x c) eqn:Hx.
  - destruct (PyStr.split_on c s); [done|simpl; lia].
  - cbn [PyStr.contains] in H. apply orb_true_iff in H as [H|H].
    + apply prefix_cons in H as [<- _]. by rewrite Ascii.eqb_refl in Hx.
    + specialize (IH H). destruct (PyStr.split_on c s); [done|exact IH].
Qed.

(** A range [lo:hi] whose bounds, after the parameters are substituted,
    cannot be evaluated (the evaluation of the lower bound raises, or
    that of the upper bound does): [_evaluate_range] returns the extent
    100 and prints the message that names the range and the error. *)
Lemma unevaluable_range_gives_100 (py_eval : host_eval)
    (range_expr lo hi : string) (params : list (string * pyval)) (msg : string) :
  map PyStr.strip (PyStr.split_on ":"%char range_expr) = [lo; hi] ->
  eval_int py_eval (substitute_params params lo) = Raises msg
  \/ (exists start_val,
        eval_int py_eval (substitute_params params lo) = Returns start_val
        /\ eval_int py_eval (substitute_params params hi) = Raises msg) ->
  _evaluate_range py_eval range_expr params
    = (Returns 100%Z,
       ["Could not evaluate range " +:+ substitute_params params lo +:+ ":"
          +:+ substitute_params params hi +:+ ": " +:+ msg;
        "Using default size"]).
Proof.
  intros Hsplit Hfail. unfold _evaluate_range.
  assert (Hcolon : PyStr.contains ":" range_expr = true).
  { destruct (PyStr.split_on ":"%char range_expr) as [|a [|b [|? ?]]] eqn:Hs;
      try discriminate.
    by apply (split_on_two _ _ a b). }
  rewrite Hcolon, Hsplit. cbn [negb].
  destruct Hfail as [Hlo | (start_val & Hlo & Hhi)].
  - by rewrite Hlo.
  - by rewrite Hlo, Hhi.
Qed.

Example unknown_symbol_gives_100 :
  _evaluate_range Atoms.py_eval_atoms "1:unknown_sym" []
    = (Returns 100%Z,
       ["Could not evaluate range 1:unknown_sym: 'NoneType' object is not subscriptable";
        "Using default size"]).
Proof. reflexivity. Qed.

(** The unpacking [start, end = ...] stands before the [try]: with three
    fields or more it fails before [eval] is called, whatever the host
    and the parameters are, and nothing has been printed. *)
Lemma evaluate_range_unpack_fails (py_eval : host_eval) (range_expr : string)
    (params : list (string * pyval)) :
  2 < length (PyStr.split_on ":"%char range_expr) ->
  _evaluate_range py_eval range_expr params
    = (Raises "too many values to unpack (expected 2)", []).
Proof.
  intros Hlen. unfold _evaluate_range.
  destruct (PyStr.contains ":" range_expr) eqn:Hcolon; cbn [negb].
  - destruct (PyStr.split_on ":"%char range_expr) as [|a [|b [|c rest]]];
      cbn [map length] in *; first [lia|reflexivity].
  - rewrite (split_on_absent _ _ Hcolon) in Hlen. cbn [length] in Hlen. lia.
Qed.

(** The run on a program that declares such an array: the error ends
    it, for every host. *)
Lemma strided_run_raises (py_eval : host_eval) :
  Full.analyze_module py_eval (new_enhanced strided_dir []) "main.F90"
    = Some (mkEnhanced strided_dir (new_state [])
              [("p", read_file strided_dir "main.F90")],
            Raises "too many values to unpack (expected 2)", []).
Proof. vm_compute. reflexivity. Qed.

(** C8, where the code departs from the claim.  The fallback covers the
    ranges with one colon only.  The two bounds are unpacked from the
    split before the [try] is entered, so a range expression with two
    colons or more, [1:unknown_sym:2] say, is not resolved to the extent
    100: [_evaluate_range] raises the error of the unpacking, for every
    host and every parameter table, with no diagnostic printed; nothing
    on the way up catches it, and the run of [analyze_module] on a
    program that declares such an array ends with that error. *)
Theorem C8_two_colons_raise_to_caller (py_eval : host_eval) (range_expr : string)
    (params : list (string * pyval)) :
  2 < length (PyStr.split_on ":"%char range_expr) ->
  (exists msg, _evaluate_range py_eval range_expr params = (Raises msg, []))
  /\ (exists self' msg,
        Full.analyze_module py_eval (new_enhanced strided_dir []) "main.F90"
          = Some (self', Raises msg, [])).
Proof.
  intros Hlen. split.
  - eexists. by apply evaluate_range_unpack_fails.
  - eexists _, _. apply strided_run_raises.
Qed.

Lemma C8_two_colons_raise_to_caller_witness :
  (exists msg,
     _evaluate_range Atoms.py_eval_atoms "1:unknown_sym:2" [] = (Raises msg, []))
  /\ (exists self' msg,
        Full.analyze_module Atoms.py_eval_atoms (new_enhanced strided_dir []) "main.F90"
          = Some (self', Raises msg, [])).
Proof.
  apply (C8_two_colons_raise_to_caller Atoms.py_eval_atoms "1:unknown_sym:2" []).
  simpl. lia.
Defined.

(** C6, what the code does: the substitution is [str.replace], which
    replaces a parameter name wherever its characters occur.  With [n]
    defined, the identifier [nx] becomes [10x]; with [n = 2] and [nn = 7],
    the range [1:nn] is resolved to the extent 22, not 7. *)
Theorem C6_substitution_rewrites_inside_names :
  substitute_params [("n", PyInt 10)] "nx" = "10x"
  /\ substitute_params [("n", PyInt 2); ("nn", PyInt 7)] "nn" = "22"
  /\ _evaluate_range Atoms.py_eval_atoms "1:nn" [("n", PyInt 2); ("nn", PyInt 7)]
     = (Returns 22%Z, []).
Proof. split_and!; reflexivity. Qed.

(** ** Derived types and the results of a run *)

(** C9, what the code does: the entry recorded for [type(point) :: p]
    carries the type tag [point], and every entry is the one-key dict
    [{'name': tag}] of a match of the pattern, [tag] being its group 1; no
    size is part of an entry. *)
Theorem C9_entry_carries_type_tag :
  derived_types "type(point) :: p" = [[("name", FStr "point")]]
  /\ (forall content entry,
        entry ∈ derived_types content ->
        exists tag value,
          (tag, value) ∈ Scan.finditer Decl.match_derived 0 content
          /\ entry = [("name", FStr tag)]
          /\ dict_get "estimated_size" entry = None).
Proof.
  split; [reflexivity|].
  intros content entry Hin. unfold derived_types in Hin.
  apply list_elem_of_fmap in Hin as ([tag value] & -> & Hm).
  exists tag, value. by split_and!.
Qed.

Lemma process_unit_source_root (py_eval : host_eval) (dep_analyzer : ModuleDependencyAnalyzer)
    (unit : string) (acc acc' : EnhancedModuleAnalyzer * results * list string) :
  process_unit py_eval dep_analyzer unit acc = Some acc' ->
  source_root acc'.1.1 = source_root acc.1.1.
Proof.
  destruct acc as [[self res] out]. unfold process_unit.
  destruct (match dict_get unit (modules dep_analyzer) with
            | Some f => Some f
            | None => dict_get unit (programs dep_analyzer)
            end) as [unit_file|]; [|by intros [= <-]].
  destruct (parse_file py_eval _ _) as [[[st text] printed]|]; [|discriminate].
  by intros [= <-].
Qed.

Lemma analyze_module_source_root (py_eval : host_eval) (self self' : EnhancedModuleAnalyzer)
    (filename : string) (res : results) (out : list string) :
  analyze_module py_eval self filename = Some (self', res, out) ->
  source_root self' = source_root self.
Proof.
  unfold analyze_module.
  destruct (analyze_file _ filename) as [[dep_analyzer unit_order]|]; [|discriminate].
  change (source_root self)
    with (source_root (mkEnhanced (source_root self) (preprocessor self) [], @nil (string * (unit_kind * unit_result)), @nil string).1.1) at 2.
  generalize (mkEnhanced (source_root self) (preprocessor self) [],
              @nil (string * (unit_kind * unit_result)), @nil string).
  revert self' res out.
  induction unit_order as [|unit units IH]; intros self' res out acc Hrun.
  - simpl in Hrun. by injection Hrun as ->.
  - simpl in Hrun.
    destruct (process_unit py_eval dep_analyzer unit acc) as [acc1|] eqn:Hunit.
    + rewrite (IH _ _ _ _ Hrun). by apply process_unit_source_root in Hunit.
    + exfalso. clear -Hrun. induction units as [|u us IHus]; [discriminate|].
      by apply IHus.
Qed.

(** A run of [analyze_module] always returns. *)
Lemma analyze_module_total (py_eval : host_eval) (self : EnhancedModuleAnalyzer)
    (filename : string) :
  exists r, analyze_module py_eval self filename = Some r.
Proof.
  unfold analyze_module.
  destruct (analyze_file_total (new_analyzer (source_root self)) filename)
    as [[dep_analyzer unit_order] ->].
  generalize (mkEnhanced (source_root self) (preprocessor self) [],
              @nil (string * (unit_kind * unit_result)), @nil string).
  induction unit_order as [|unit units IH]; intros acc; [simpl; eauto|].
  simpl.
  assert (exists acc1, process_unit py_eval dep_analyzer unit acc = Some acc1) as [acc1 ->];
    [|apply IH].
  destruct acc as [[s res] out]. unfold process_unit.
  destruct (match dict_get unit (modules dep_analyzer) with
            | Some f => Some f
            | None => dict_get unit (programs dep_analyzer)
            end) as [unit_file|]; [|eauto].
  destruct (parse_file_total py_eval (preprocessor s) (read_file (source_root s) unit_file))
    as [[[st text] printed] ->].
  eauto.
Qed.

(** Where two runs do agree: a run that leaves the activation stack as it
    found it is repeated identically by the next one. *)
Lemma analyze_module_repeatable (py_eval : host_eval) (self self' : EnhancedModuleAnalyzer)
    (filename : string) (res : results) (out : list string) :
  analyze_module py_eval self filename = Some (self', res, out) ->
  preprocessor self' = preprocessor self ->
  analyze_module py_eval self' filename = Some (self', res, out).
Proof.
  intros Hrun Hsame. pose proof (analyze_module_source_root _ _ _ _ _ _ Hrun) as Hroot.
  rewrite <- Hrun. unfold analyze_module. by rewrite Hroot, Hsame.
Qed.

(** C4, what the code does: the activation stack of the preprocessor
    outlives a run.  Two runs in succession on the same analyzer, with the
    directory and the configuration unchanged, give different results
    when the first one leaves the stack deeper than it found it, as on
    this program unit: its second [#endif] is the line after a directive
    and is skipped, so the second run starts inside the block of [A] and
    keeps no line. *)
Theorem C4_second_run_differs :
  exists self1 out1 self2 out2,
    analyze_module Atoms.py_eval_atoms (new_enhanced nested_blocks_dir []) "main.F90"
      = Some (self1,
              [("p", (KProgram,
                      mkUnitResult "p" "main.F90" [[("name", FStr "t")]] []))],
              out1)
    /\ analyze_module Atoms.py_eval_atoms self1 "main.F90"
      = Some (self2, [("p", (KProgram, mkUnitResult "p" "main.F90" [] []))], out2)
    /\ active_blocks (preprocessor self1) = [PyBool true; PyBool false].
Proof.
  eexists _, _, _, _. split_and!.
  - vm_compute. reflexivity.
  - vm_compute. reflexivity.
  - reflexivity.
Qed.

(** * Further properties of the code *)

(** ** More on the loop of [parse_file] *)

Lemma line_at_lookup (lines : list string) (i : nat) :
  i < length lines -> lines !! i = Some (line_at lines i).
Proof.
  intros Hi. apply lookup_lt_is_Some_2 in Hi as [x Hx].
  unfold line_at. by rewrite (nth_lookup_Some _ _ _ _ Hx).
Qed.

Lemma drop_line_at (lines : list string) (i : nat) :
  i < length lines -> drop i lines = line_at lines i :: drop (S i) lines.
Proof. intros Hi. by apply drop_S, line_at_lookup. Qed.

(** What the loop appends is taken, in order, from the lines it has still
    to read. *)
Lemma parse_loop_sublist (py_eval : host_eval) (fuel : nat) :
  forall st lines i processed out st' processed' out',
    parse_loop py_eval fuel st lines i processed out = Some (st', processed', out') ->
    exists added, processed' = processed ++ added /\ added `sublist_of` drop i lines.
Proof.
  induction fuel as [|fuel IH]; intros st lines i processed out st' processed' out' Hrun.
  - simpl in Hrun. destruct (i <? length lines); simpl in Hrun; [discriminate|].
    injection Hrun as _ <- _. exists []. split; [by rewrite app_nil_r|apply sublist_nil_l].
  - simpl in Hrun. destruct (i <? length lines) eqn:Hi; simpl in Hrun.
    2:{ injection Hrun as _ <- _. exists []. split; [by rewrite app_nil_r|apply sublist_nil_l]. }
    apply Nat.ltb_lt in Hi.
    destruct (PyStr.startswith (PyStr.strip (line_at lines i)) "#").
    + pose proof (handle_index py_eval st lines i) as Hidx.
      destruct (_handle_preprocessor_directive py_eval st lines i) as [[st1 i1] o1].
      simpl in Hidx. subst i1.
      destruct (IH _ _ _ _ _ _ _ _ Hrun) as (added & -> & Hsub).
      exists added. split; [done|].
      etrans; [exact Hsub|]. replace (i + 1 + 1) with (i + 2) by lia.
      rewrite <- drop_drop. apply sublist_drop.
    + destruct (is_active st).
      * destruct (IH _ _ _ _ _ _ _ _ Hrun) as (added & -> & Hsub).
        exists (line_at lines i :: added). split; [by rewrite <- app_assoc|].
        rewrite (drop_line_at _ _ Hi). apply sublist_skip.
        by replace (S i) with (i + 1) by lia.
      * destruct (IH _ _ _ _ _ _ _ _ Hrun) as (added & -> & Hsub).
        exists added. split; [done|].
        rewrite (drop_line_at _ _ Hi). apply sublist_cons.
        by replace (S i) with (i + 1) by lia.
Qed.

(** X1. The lines [parse_file] keeps are lines of the file, unchanged and in
    the order of the file. *)
Theorem parse_lines_keeps_order (py_eval : host_eval) (st : PreprocessorState)
    (content : string) :
  exists st' processed_lines out,
    parse_lines py_eval st content = Some (st', processed_lines, out)
    /\ processed_lines `sublist_of` PyStr.split_on "010"%char content.
Proof.
  destruct (parse_lines_total py_eval st content) as [[[st' pl] out] Hrun].
  exists st', pl, out. split; [exact Hrun|].
  unfold parse_lines in Hrun.
  apply parse_loop_sublist in Hrun as (added & -> & Hsub). by rewrite drop_0 in Hsub.
Qed.

(** The symbol table is the same after the loop. *)
Lemma parse_loop_defines (py_eval : host_eval) (fuel : nat) :
  forall st lines i processed out st' processed' out',
    parse_loop py_eval fuel st lines i processed out = Some (st', processed', out') ->
    defines st' = defines st.
Proof.
  induction fuel as [|fuel IH]; intros st lines i processed out st' processed' out' Hrun.
  - simpl in Hrun. destruct (i <? length lines); simpl in Hrun; [discriminate|].
    by injection Hrun as <- _ _.
  - simpl in Hrun. destruct (i <? length lines); simpl in Hrun;
      [|by injection Hrun as <- _ _].
    destruct (PyStr.startswith (PyStr.strip (line_at lines i)) "#").
    + pose proof (handle_defines py_eval st lines i) as Hdef.
      destruct (_handle_preprocessor_directive py_eval st lines i) as [[st1 i1] o1].
      simpl in Hdef. rewrite <- Hdef. eapply IH; eauto.
    + destruct (is_active st); eapply IH; eauto.
Qed.

Lemma join_split_on (c : ascii) (s : string) :
  PyStr.join (String c EmptyString) (PyStr.split_on c s) = s.
Proof.
  induction s as [|x s IH]; [reflexivity|].
  cbn [PyStr.split_on]. destruct (Ascii.eqb x c) eqn:Hx.
  - apply Ascii.eqb_eq in Hx as ->.
    pose proof (split_on_nonempty c s) as Hne.
    destruct (PyStr.split_on c s) as [|f fs]; [done|].
    change (PyStr.join (String c "") ("" :: f :: fs))
      with ("" +:+ String c "" +:+ PyStr.join (String c "") (f :: fs)).
    by rewrite IH.
  - pose proof (split_on_nonempty c s) as Hne.
    destruct (PyStr.split_on c s) as [|f fs]; [done|].
    destruct fs as [|g fs].
    + simpl in *. by rewrite IH.
    + change (PyStr.join (String c "") (String x f :: g :: fs))
        with (String x f +:+ String c "" +:+ PyStr.join (String c "") (g :: fs)).
      change (PyStr.join (String c "") (f :: g :: fs))
        with (f +:+ String c "" +:+ PyStr.join (String c "") (g :: fs)) in IH.
      simpl. by rewrite <- IH.
Qed.

(** Without directive lines the loop keeps every line or none. *)
Lemma parse_loop_plain (py_eval : host_eval) (fuel : nat) :
  forall st lines i processed out,
    Forall (fun raw => is_directive_line raw = false) lines ->
    length lines - i <= fuel ->
    parse_loop py_eval fuel st lines i processed out
      = Some (st, processed ++ (if is_active st then drop i lines else []), out).
Proof.
  induction fuel as [|fuel IH]; intros st lines i processed out Hplain Hfuel.
  - simpl. destruct (i <? length lines) eqn:Hi; simpl.
    + apply Nat.ltb_lt in Hi. lia.
    + apply Nat.ltb_ge in Hi. rewrite (drop_ge _ _ Hi).
      destruct (is_active st); by rewrite app_nil_r.
  - simpl. destruct (i <? length lines) eqn:Hi; simpl.
    2:{ apply Nat.ltb_ge in Hi. rewrite (drop_ge _ _ Hi).
        destruct (is_active st); by rewrite app_nil_r. }
    apply Nat.ltb_lt in Hi.
    assert (Hline : PyStr.startswith (PyStr.strip (line_at lines i)) "#" = false).
    { rewrite Forall_lookup in Hplain. apply (Hplain i). by apply line_at_lookup. }
    rewrite Hline. destruct (is_active st) eqn:Hact.
    + rewrite IH by (done || lia). rewrite Hact, (drop_line_at _ _ Hi).
      rewrite <- app_assoc. simpl. by replace (i + 1) with (S i) by lia.
    + rewrite IH by (done || lia). by rewrite Hact.
Qed.

(** X2. A text without directive lines comes back as it is when the stack is
    all true, and as the empty text when it is not; the state is
    unchanged and nothing is printed. *)
Theorem parse_file_plain_text (py_eval : host_eval) (st : PreprocessorState)
    (content : string) :
  Forall (fun raw => is_directive_line raw = false) (PyStr.split_on "010"%char content) ->
  parse_file py_eval st content
    = Some (st, if is_active st then content else EmptyString, []).
Proof.
  intros Hplain. unfold parse_file, parse_lines.
  rewrite (parse_loop_plain py_eval _ st _ 0 [] [] Hplain) by lia.
  rewrite drop_0. destruct (is_active st); simpl; [|done].
  by rewrite join_split_on.
Qed.

Lemma handle_reads_one_line (py_eval : host_eval) (st : PreprocessorState)
    (lines lines' : list string) (i : nat) :
  line_at lines i = line_at lines' i ->
  _handle_preprocessor_directive py_eval st lines i
    = _handle_preprocessor_directive py_eval st lines' i.
Proof. intros Heq. unfold _handle_preprocessor_directive. by rewrite Heq. Qed.

(** The loop started at index [i] reads the lines from [i] on only. *)
Lemma parse_loop_reads_from (py_eval : host_eval) (fuel : nat) :
  forall st lines lines' i processed out,
    length lines = length lines' ->
    (forall j, i <= j -> line_at lines j = line_at lines' j) ->
    parse_loop py_eval fuel st lines i processed out
      = parse_loop py_eval fuel st lines' i processed out.
Proof.
  induction fuel as [|fuel IH]; intros st lines lines' i processed out Hlen Hsame.
  - simpl. by rewrite Hlen.
  - simpl. rewrite Hlen, <- (Hsame i) by lia.
    destruct (i <? length lines'); simpl; [|done].
    destruct (PyStr.startswith (PyStr.strip (line_at lines i)) "#").
    + rewrite <- (handle_reads_one_line py_eval st lines lines' i) by (apply Hsame; lia).
      destruct (_handle_preprocessor_directive py_eval st lines i) as [[st1 i1] o1] eqn:Hh.
      pose proof (handle_index py_eval st lines i) as Hidx. rewrite Hh in Hidx.
      simpl in Hidx. subst i1.
      apply IH; [done|]. intros j Hj. apply Hsame. lia.
    + destruct (is_active st); (apply IH; [done|]); intros j Hj; apply Hsame; lia.
Qed.

Lemma line_at_insert_ne (lines : list string) (i j : nat) (x : string) :
  i <> j -> line_at (<[i:=x]> lines) j = line_at lines j.
Proof. intros Hne. unfold line_at. by rewrite !nth_lookup, list_lookup_insert_ne. Qed.

(** X3. The line that follows a directive line is never looked at: the loop,
    when it is at a directive line, gives the same state, the same output
    and the same prints whatever the next line is. *)
Theorem line_after_directive_is_skipped (py_eval : host_eval) (fuel : nat)
    (st : PreprocessorState) (lines : list string) (i : nat) (other : string)
    (processed out : list string) :
  is_directive_line (line_at lines i) = true ->
  parse_loop py_eval fuel st (<[S i := other]> lines) i processed out
    = parse_loop py_eval fuel st lines i processed out.
Proof.
  intros Hdir. destruct fuel as [|fuel]; simpl; rewrite length_insert; [done|].
  destruct (i <? length lines); simpl; [|done].
  rewrite line_at_insert_ne by lia. unfold is_directive_line in Hdir. rewrite Hdir.
  rewrite (handle_reads_one_line py_eval st (<[S i:=other]> lines) lines i)
    by (apply line_at_insert_ne; lia).
  destruct (_handle_preprocessor_directive py_eval st lines i) as [[st1 i1] o1] eqn:Hh.
  pose proof (handle_index py_eval st lines i) as Hidx. rewrite Hh in Hidx.
  simpl in Hidx. subst i1.
  apply parse_loop_reads_from; [by rewrite length_insert|].
  intros j Hj. apply line_at_insert_ne. lia.
Qed.

(** ** The order on every graph *)

Lemma resolve_order_reachable (dependencies : list (string * gset string)) (target : string) :
  exists needed,
    resolve_order dependencies target = Some (needed ++ [target])
    /\ NoDup needed
    /\ (forall x, x ∈ needed <-> tc (uses (deps_of dependencies)) target x).
Proof.
  unfold resolve_order.
  destruct (resolve_order_total dependencies target) as [[visited needed] Hrun].
  rewrite Hrun. exists needed. split; [reflexivity|].
  pose proof (visit_post_holds _ _ _ _ _ Hrun ∅) as (_ & Htarget & _ & Hnd & Horig & Hcl).
  simpl in *.
  assert (Hclosed : closed (deps_of dependencies) ∅ visited needed).
  { apply Hcl. intros x d Hx. by apply elem_of_empty in Hx. }
  split; [apply Hnd; constructor|].
  intros x. split.
  - intros Hx. destruct (Horig _ Hx) as [Hnil|Htc]; [by apply elem_of_nil in Hnil|done].
  - assert (Hreach : forall y d, tc (uses (deps_of dependencies)) y d ->
                       y ∈ visited -> d ∈ visited /\ d ∈ needed).
    { induction 1 as [y z Hyz | y z w Hyz _ IH]; intros Hy.
      - apply (Hclosed y z); [done|apply not_elem_of_empty|done].
      - apply IH. apply (Hclosed y z); [done|apply not_elem_of_empty|done]. }
    intros Hx. by apply (Hreach target x).
Qed.

(** X7. For every directory, with or without cycles among the references,
    and every target found in the catalog, [analyze_file] returns; the
    order is [needed ++ [target]], where [needed] has no name twice and
    holds exactly the units the target reaches through one or more
    references. *)
Theorem analyze_file_lists_reachable_units (dir : directory) (filename target : string) :
  let a := analyze_dependencies (scan_files (new_analyzer dir)) in
  find_target a filename = Some target ->
  exists needed,
    analyze_file (new_analyzer dir) filename = Some (a, needed ++ [target])
    /\ NoDup needed
    /\ (forall x, x ∈ needed <-> tc (uses (deps_of (dependencies a))) target x).
Proof.
  intros a Htarget.
  destruct (resolve_order_reachable (dependencies a) target) as (needed & Hrun & Hnd & Hall).
  exists needed. split; [|by split].
  unfold analyze_file. fold a. by rewrite Htarget, Hrun.
Qed.

(** X8. The order names a unit twice exactly when the target lies on a cycle
    of references; the unit named twice is then the target. *)
Theorem order_repeats_target_on_cycle (dir : directory) (filename target : string)
    (order : list string) :
  let a := analyze_dependencies (scan_files (new_analyzer dir)) in
  find_target a filename = Some target ->
  analyze_file (new_analyzer dir) filename = Some (a, order) ->
  (NoDup order <-> ~ tc (uses (deps_of (dependencies a))) target target).
Proof.
  intros a Htarget Hrun.
  destruct (analyze_file_lists_reachable_units dir filename target Htarget)
    as (needed & Hrun' & Hnd & Hall).
  fold a in Hrun'. rewrite Hrun in Hrun'. injection Hrun' as ->.
  rewrite NoDup_app. split.
  - intros (_ & Hdisj & _) Hcycle. apply (Hdisj target); [by apply Hall|by left].
  - intros Hno. split_and!; [done| |apply NoDup_singleton].
    intros x Hx Hxt. apply list_elem_of_singleton in Hxt as ->. by apply Hno, Hall.
Qed.

(** X9. A target that references nothing is alone in its order. *)
Theorem order_of_unit_without_references (dir : directory) (filename target : string) :
  let a := analyze_dependencies (scan_files (new_analyzer dir)) in
  find_target a filename = Some target ->
  deps_of (dependencies a) target = [] ->
  analyze_file (new_analyzer dir) filename = Some (a, [target]).
Proof.
  intros a Htarget Hnone.
  destruct (analyze_file_lists_reachable_units dir filename target Htarget)
    as (needed & Hrun & _ & Hall).
  fold a in Hrun. rewrite Hrun.
  destruct needed as [|x needed]; [done|]. exfalso.
  assert (Hx : tc (uses (deps_of (dependencies a))) target x) by (apply Hall; left).
  assert (Hfirst : exists y, uses (deps_of (dependencies a)) target y).
  { clear -Hx. induction Hx; eauto. }
  destruct Hfirst as [y Hy]. unfold uses in Hy. rewrite Hnone in Hy.
  by apply elem_of_nil in Hy.
Qed.

(** ** The order on a graph without cycles *)

Section Topological.
Variable deps : string -> list string.
Hypothesis deps_acyclic : acyclic deps.

Lemma dependencies_first_snoc (order : list string) (x : string) :
  dependencies_first deps order ->
  (forall d, d ∈ deps x -> d ∈ order) ->
  dependencies_first deps (order ++ [x]).
Proof.
  intros Htopo Hx before y after Heq d Hd.
  destruct after as [|z after _] using rev_ind.
  - apply app_inj_tail in Heq as [-> ->]. by apply Hx.
  - change (before ++ y :: after ++ [z]) with (before ++ (y :: after) ++ [z]) in Heq.
    rewrite app_assoc in Heq. apply app_inj_tail in Heq as [Heq _].
    by apply (Htopo before y after).
Qed.

Lemma visit_deps_dependencies_first rec :
  (forall d vn vn', rec d vn = Some vn' -> forall stack, visit_post deps stack d vn vn') ->
  (forall d vn vn' stack,
     rec d vn = Some vn' ->
     (forall s, s ∈ stack -> tc (uses deps) s d) ->
     closed deps stack vn.1 vn.2 ->
     dependencies_first deps vn.2 -> dependencies_first deps vn'.2) ->
  forall ds vn vn' stack,
    (forall d s, d ∈ ds -> s ∈ stack -> tc (uses deps) s d) ->
    visit_deps rec ds (Some vn) = Some vn' ->
    closed deps stack vn.1 vn.2 ->
    dependencies_first deps vn.2 -> dependencies_first deps vn'.2.
Proof.
  intros Hpost Hrec ds. induction ds as [|d ds IH]; intros vn vn' stack Hstack Hrun Hcl Htopo.
  - simpl in Hrun. by injection Hrun as <-.
  - unfold visit_deps in Hrun. simpl in Hrun.
    destruct (rec d vn) as [[v1 n1]|] eqn:Hd;
      [|fold (visit_deps rec ds None) in Hrun; by rewrite visit_deps_none in Hrun].
    fold (visit_deps rec ds (Some (v1, if in_list d n1 then n1 else n1 ++ [d]))) in Hrun.
    destruct (Hpost d vn (v1, n1) Hd stack) as (_ & Hdv & _ & _ & _ & Hcl1).
    specialize (Hcl1 Hcl). simpl in Hdv, Hcl1.
    assert (Htopo1 : dependencies_first deps n1).
    { apply (Hrec d vn (v1, n1) stack Hd); [|done|done].
      intros s Hs. apply Hstack; [by left|done]. }
    assert (Hdstack : d ∉ stack).
    { intros Hs. apply (deps_acyclic d). apply Hstack; [by left|done]. }
    assert (Hdeps : forall e, e ∈ deps d -> e ∈ n1).
    { intros e He. by apply (Hcl1 d e). }
    apply (IH (v1, if in_list d n1 then n1 else n1 ++ [d]) vn' stack).
    + intros e s He Hs. apply Hstack; [by right|done].
    + exact Hrun.
    + simpl. destruct (in_list d n1); [done|].
      eapply closed_mono; [|exact Hcl1]. intros y Hy. apply elem_of_app. by left.
    + simpl. destruct (in_list d n1); [done|]. by apply dependencies_first_snoc.
Qed.

Lemma visit_dependencies_first (fuel : nat) :
  forall name vn vn' stack,
    visit fuel deps name vn = Some vn' ->
    (forall s, s ∈ stack -> tc (uses deps) s name) ->
    closed deps stack vn.1 vn.2 ->
    dependencies_first deps vn.2 -> dependencies_first deps vn'.2.
Proof.
  induction fuel as [|fuel IH]; intros name [v n] vn' stack Hrun Hstack Hcl Htopo;
    [discriminate|].
  simpl in Hrun. case_bool_decide as Hvisited; [by injection Hrun as <-|].
  apply (visit_deps_dependencies_first (visit fuel deps)
           (visit_post_holds deps fuel) IH (deps name) ({[name]} ∪ v, n) vn'
           (stack ∪ {[name]}));
    [|exact Hrun| |exact Htopo].
  - intros d s Hd Hs. apply elem_of_union in Hs as [Hs|Hs].
    + eapply tc_r; [by apply Hstack|done].
    + apply elem_of_singleton in Hs as ->. by apply tc_once.
  - simpl. intros x d Hx Hs Hd. simpl in Hcl.
    rewrite elem_of_union, elem_of_singleton in Hs.
    apply elem_of_union in Hx as [Hx|Hx]; [apply elem_of_singleton in Hx; tauto|].
    destruct (Hcl x d) as [Hdv Hdn]; [done|tauto|done|].
    split; [apply elem_of_union; by right|done].
Qed.
End Topological.

Lemma resolve_order_dependencies_first (dependencies : list (string * gset string))
    (target : string) (order : list string) :
  acyclic (deps_of dependencies) ->
  resolve_order dependencies target = Some order ->
  dependencies_first (deps_of dependencies) order.
Proof.
  intros Hacyclic. unfold resolve_order.
  destruct (visit _ _ target (∅, [])) as [[visited needed]|] eqn:Hrun; [|discriminate].
  intros [= <-].
  assert (Hempty : closed (deps_of dependencies) ∅ ∅ []).
  { intros x d Hx. by apply elem_of_empty in Hx. }
  pose proof (visit_post_holds _ _ _ _ _ Hrun ∅) as (_ & Htarget & _ & _ & _ & Hcl).
  specialize (Hcl Hempty). simpl in Htarget, Hcl.
  apply dependencies_first_snoc.
  - apply (visit_dependencies_first _ Hacyclic _ _ _ _ ∅ Hrun); [|done|].
    + intros s Hs. by apply elem_of_empty in Hs.
    + intros before x after Heq. by destruct before.
  - intros d Hd. by apply (Hcl target d); [|apply not_elem_of_empty|].
Qed.

(** X10. When the references have no cycle, the order [analyze_file] returns is
    a topological one: every unit of the order, not the target alone,
    stands after all the units it uses. *)
Theorem analyze_file_order_is_topological (dir : directory) (filename : string)
    (a : ModuleDependencyAnalyzer) (order : list string) :
  analyze_file (new_analyzer dir) filename = Some (a, order) ->
  acyclic (deps_of (dependencies a)) ->
  dependencies_first (deps_of (dependencies a)) order.
Proof.
  unfold analyze_file.
  destruct (find_target _ filename) as [target|].
  - destruct (resolve_order _ target) as [order'|] eqn:Hrun; [|discriminate].
    intros [= <- <-] Hacyclic. by apply (resolve_order_dependencies_first _ target).
  - intros [= <- <-] _ before x after Heq. by destruct before.
Qed.

(** ** Dicts *)

Lemma dict_get_set_eq {V : Type} (k : string) (v : V) (d : list (string * V)) :
  dict_get k (dict_set k v d) = Some v.
Proof.
  induction d as [|[k' v'] d IH]; simpl.
  - by rewrite String.eqb_refl.
  - destruct (String.eqb k k') eqn:Hk; simpl; rewrite ?String.eqb_refl, ?Hk; done.
Qed.

Lemma dict_get_set_ne {V : Type} (k k' : string) (v : V) (d : list (string * V)) :
  k <> k' -> dict_get k' (dict_set k v d) = dict_get k' d.
Proof.
  intros Hne. induction d as [|[k0 v0] d IH]; simpl.
  - destruct (String.eqb k' k) eqn:Hk; [|done]. apply String.eqb_eq in Hk. congruence.
  - destruct (String.eqb k k0) eqn:Hk; simpl.
    + apply String.eqb_eq in Hk as <-.
      destruct (String.eqb k' k) eqn:Hk'; [|done]. apply String.eqb_eq in Hk'. congruence.
    + by rewrite IH.
Qed.

Lemma dict_set_keys {V : Type} (k : string) (v : V) (d : list (string * V)) (x : string) :
  x ∈ (dict_set k v d).*1 -> x = k \/ x ∈ d.*1.
Proof.
  induction d as [|[k' v'] d IH]; simpl.
  - rewrite list_elem_of_singleton. by left.
  - destruct (String.eqb k k') eqn:Hk; simpl; rewrite !elem_of_cons.
    + apply String.eqb_eq in Hk as <-. tauto.
    + intros [->|Hx]; [tauto|]. destruct (IH Hx); tauto.
Qed.

(** Setting the names of a list, all to the same file. *)
Lemma register_names_get (f : string) (names : list string) (name : string) :
  forall table : list (string * string),
    dict_get name (fold_left (fun ms n => dict_set n f ms) names table)
    = if bool_decide (name ∈ names) then Some f else dict_get name table.
Proof.
  induction names as [|n names IH]; intros table; simpl; [done|].
  rewrite IH. case_bool_decide as Hin.
  - rewrite bool_decide_eq_true_2; [done|by right].
  - destruct (decide (name = n)) as [->|Hne].
    + rewrite bool_decide_eq_true_2 by left. apply dict_get_set_eq.
    + rewrite bool_decide_eq_false_2.
      * by apply dict_get_set_ne.
      * rewrite elem_of_cons. tauto.
Qed.

Lemma register_names_keys (f : string) (names : list string) (x : string) :
  forall table : list (string * string),
    x ∈ (fold_left (fun ms n => dict_set n f ms) names table).*1 ->
    x ∈ names \/ x ∈ table.*1.
Proof.
  induction names as [|n names IH]; intros table; simpl; [tauto|].
  intros Hx. destruct (IH _ Hx) as [?|Hset]; [left; by right|].
  destruct (dict_set_keys _ _ _ _ Hset) as [->|?]; [left; by left|by right].
Qed.

(** ** The catalog *)

Lemma scan_files_fold (a : ModuleDependencyAnalyzer) :
  scan_files a = fold_left scan_step (source_dir a) a.
Proof. reflexivity. Qed.

Lemma scan_untouched (files : list (string * string)) (name : string) :
  forall a,
    Forall (fun fc => name ∉ Scan.names_after "module" fc.2) files ->
    dict_get name (modules (fold_left scan_step files a)) = dict_get name (modules a).
Proof.
  induction files as [|[f c] files IH]; intros a Hnone; simpl; [done|].
  apply Forall_cons in Hnone as [Hc Hrest]. rewrite IH by done. simpl.
  rewrite register_names_get. by rewrite bool_decide_eq_false_2.
Qed.

(** X11. Last write wins: a module name is registered with the last file of
    the directory, in the order of the scan, whose text declares it. *)
Theorem scan_files_last_file_wins (earlier later : directory) (f content name : string) :
  name ∈ Scan.names_after "module" content ->
  Forall (fun fc => name ∉ Scan.names_after "module" fc.2) later ->
  dict_get name (modules (scan_files (new_analyzer (earlier ++ (f, content) :: later))))
    = Some f.
Proof.
  intros Hdecl Hlater. rewrite scan_files_fold. simpl.
  rewrite fold_left_app. simpl. rewrite scan_untouched by done. simpl.
  rewrite register_names_get. by rewrite bool_decide_eq_true_2.
Qed.

Lemma to_lower_idemp (c : ascii) : PyStr.to_lower (PyStr.to_lower c) = PyStr.to_lower c.
Proof.
  destruct c as [[] [] [] [] [] [] [] []]; reflexivity.
Qed.

Lemma lower_idemp (s : string) : PyStr.lower (PyStr.lower s) = PyStr.lower s.
Proof. induction s as [|c s IH]; simpl; [done|]. by rewrite to_lower_idemp, IH. Qed.

Lemma names_after_lower (kw content name : string) :
  name ∈ Scan.names_after kw content -> lower_case name.
Proof.
  unfold Scan.names_after. intros Hin.
  apply list_elem_of_fmap in Hin as (raw & -> & _). apply lower_idemp.
Qed.

Lemma scan_lower (files : list (string * string)) :
  forall a,
    Forall lower_case (modules a).*1 -> Forall lower_case (programs a).*1 ->
    Forall lower_case (modules (fold_left scan_step files a)).*1
    /\ Forall lower_case (programs (fold_left scan_step files a)).*1.
Proof.
  induction files as [|[f c] files IH]; intros a Hm Hp; simpl; [done|].
  apply IH; simpl; apply Forall_forall; intros x Hx;
    apply register_names_keys in Hx as [Hx|Hx];
    first [ by apply names_after_lower in Hx | by eapply Forall_forall in Hx ].
Qed.

Lemma analyze_file_dependencies_tables (a : ModuleDependencyAnalyzer) (n p : string) :
  modules (_analyze_file_dependencies a n p) = modules a
  /\ programs (_analyze_file_dependencies a n p) = programs a
  /\ source_dir (_analyze_file_dependencies a n p) = source_dir a.
Proof. done. Qed.

Lemma analyze_dependencies_fold_tables (l : list (string * string)) :
  forall a,
    let a' := fold_left (fun a nf => _analyze_file_dependencies a nf.1 nf.2) l a in
    modules a' = modules a /\ programs a' = programs a /\ source_dir a' = source_dir a.
Proof.
  induction l as [|[n p] l IH]; intros a; simpl; [done|].
  destruct (IH (_analyze_file_dependencies a n p)) as (-> & -> & ->). done.
Qed.

Lemma analyze_dependencies_tables (a : ModuleDependencyAnalyzer) :
  modules (analyze_dependencies a) = modules a
  /\ programs (analyze_dependencies a) = programs a.
Proof.
  unfold analyze_dependencies.
  destruct (analyze_dependencies_fold_tables (modules a) a) as (Hm & Hp & _).
  destruct (analyze_dependencies_fold_tables
              (programs (fold_left (fun a nf => _analyze_file_dependencies a nf.1 nf.2)
                                   (modules a) a))
              (fold_left (fun a nf => _analyze_file_dependencies a nf.1 nf.2)
                         (modules a) a)) as (Hm' & Hp' & _).
  simpl in *. split; congruence.
Qed.

Lemma dict_set_Forall {V : Type} (P : string * V -> Prop) (k : string) (v : V)
    (d : list (string * V)) :
  P (k, v) -> Forall P d -> Forall P (dict_set k v d).
Proof.
  intros Hkv. induction d as [|[k' v'] d IH]; simpl; intros Hd.
  - by constructor.
  - apply Forall_cons in Hd as [Hhd Htl].
    destruct (String.eqb k k'); constructor; auto.
Qed.

Lemma analyze_dependencies_fold_lower (l : list (string * string)) :
  forall a,
    references_lower (dependencies a) ->
    references_lower
      (dependencies (fold_left (fun a nf => _analyze_file_dependencies a nf.1 nf.2) l a)).
Proof.
  induction l as [|[n p] l IH]; intros a Ha; simpl; [done|].
  apply IH. simpl. apply dict_set_Forall; [|done].
  simpl. intros y Hy. apply elem_of_list_to_set in Hy. by apply names_after_lower in Hy.
Qed.

(** X12. Unit names are kept in lower case throughout: the names of the two
    catalog tables after the scan, and every name a unit references. *)
Theorem catalog_names_are_lower_case (dir : directory) :
  let a := analyze_dependencies (scan_files (new_analyzer dir)) in
  Forall lower_case (modules a).*1
  /\ Forall lower_case (programs a).*1
  /\ (forall x y, uses (deps_of (dependencies a)) x y -> lower_case y).
Proof.
  intros a. subst a.
  destruct (analyze_dependencies_tables (scan_files (new_analyzer dir))) as [-> ->].
  destruct (scan_lower dir (new_analyzer dir)) as [Hm Hp]; [constructor|constructor|].
  split; [exact Hm|]. split; [exact Hp|].
  assert (Hrefs : references_lower
                    (dependencies (analyze_dependencies (scan_files (new_analyzer dir))))).
  { unfold analyze_dependencies. apply analyze_dependencies_fold_lower.
    apply analyze_dependencies_fold_lower.
    assert (Hnone : forall files a, dependencies (fold_left scan_step files a) = dependencies a).
    { induction files as [|[f c] files IH]; intros a; simpl; [done|]. by rewrite IH. }
    rewrite scan_files_fold, Hnone. constructor. }
  intros x y Hxy. unfold uses, deps_of in Hxy.
  destruct (dict_get x _) as [s|] eqn:Hget; [|by apply elem_of_nil in Hxy].
  apply dict_get_In in Hget. unfold references_lower in Hrefs.
  rewrite Forall_forall in Hrefs. apply list_elem_of_In in Hget.
  apply (Hrefs _ Hget). by apply elem_of_elements in Hxy.
Qed.

(** ** [_find_dependencies] *)

Lemma find_dependencies_fold (names : list string) :
  forall deps,
    NoDup deps ->
    let result :=
      fold_left (fun deps module_name =>
                   if in_list (PyStr.lower module_name) deps then deps
                   else deps ++ [PyStr.lower module_name]) names deps in
    NoDup result
    /\ (forall x, x ∈ result <-> x ∈ deps \/ x ∈ map PyStr.lower names).
Proof.
  induction names as [|n names IH]; intros deps Hnd; simpl.
  - split; [done|]. intros x. rewrite elem_of_nil. tauto.
  - destruct (in_list (PyStr.lower n) deps) eqn:Hin.
    + destruct (IH deps Hnd) as [Hnd' Hmem]. split; [done|].
      intros x. rewrite Hmem, elem_of_cons. apply in_list_spec in Hin.
      split; [tauto|]. intros [?|[->|?]]; tauto.
    + assert (Hnd1 : NoDup (deps ++ [PyStr.lower n])).
      { apply NoDup_app. split_and!; [done| |apply NoDup_singleton].
        intros x Hx Hxn. apply list_elem_of_singleton in Hxn as ->.
        apply in_list_spec in Hx. congruence. }
      destruct (IH _ Hnd1) as [Hnd' Hmem]. split; [done|].
      intros x. rewrite Hmem, elem_of_app, list_elem_of_singleton, elem_of_cons. tauto.
Qed.

(** X13. The list [_find_dependencies] returns names every referenced module
    once, in lower case: it has no name twice, and its names are exactly
    the lower-cased names matched by the pattern. *)
Theorem find_dependencies_once_each (content : string) :
  NoDup (_find_dependencies content)
  /\ (forall x,
        x ∈ _find_dependencies content
        <-> x ∈ map PyStr.lower (Scan.finditer Decl.match_use 0 content)).
Proof.
  unfold _find_dependencies.
  destruct (find_dependencies_fold (Scan.finditer Decl.match_use 0 content) []
              NoDup_nil_2) as [Hnd Hmem].
  split; [exact Hnd|]. intros x. rewrite Hmem, elem_of_nil. tauto.
Qed.

(** ** [_evaluate_range] *)

(** X14. For a host in the sense of [host_eval], one whose [eval]
    answers with a value or with an instance of [Exception]:
    [_evaluate_range] returns an extent on every range expression with
    one colon or none, whatever the bounds and the parameters are; the
    [try] catches what the evaluation of the two bounds raises. *)
Theorem evaluate_range_returns_up_to_one_colon (py_eval : host_eval)
    (range_expr : string) (params : list (string * pyval)) :
  length (PyStr.split_on ":"%char range_expr) <= 2 ->
  exists size out, _evaluate_range py_eval range_expr params = (Returns size, out).
Proof.
  intros Hlen. unfold _evaluate_range.
  destruct (PyStr.contains ":" range_expr) eqn:Hcolon; cbn [negb]; [|eauto].
  pose proof (split_on_present _ _ Hcolon) as Hlen'.
  destruct (PyStr.split_on ":"%char range_expr) as [|a [|b [|c rest]]] eqn:Hsplit;
    cbn [map length] in *; [lia|lia| |lia].
  destruct (eval_int py_eval _) as [start_val|msg]; [|eauto].
  destruct (eval_int py_eval _) as [end_val|msg]; eauto.
Qed.

(** ** Sizes *)

Lemma contains_char (c x : ascii) (s : string) :
  PyStr.contains (String c EmptyString) (String x s)
  = Ascii.eqb c x || PyStr.contains (String c EmptyString) s.
Proof.
  cbn [PyStr.contains]. f_equal. simpl.
  destruct (ascii_dec c x) as [->|Hne].
  - rewrite Ascii.eqb_refl. apply prefix_empty.
  - symmetry. by apply Ascii.eqb_neq.
Qed.

Lemma lstrip_without (c : ascii) (s : string) :
  PyStr.contains (String c EmptyString) s = false ->
  PyStr.contains (String c EmptyString) (PyStr.lstrip s) = false.
Proof.
  induction s as [|x s IH]; [done|]. intros H. cbn [PyStr.lstrip].
  destruct (PyStr.is_space x); [|done].
  rewrite contains_char in H. apply orb_false_iff in H as [_ H]. by apply IH.
Qed.

Lemma rstrip_without (c : ascii) (s : string) :
  PyStr.contains (String c EmptyString) s = false ->
  PyStr.contains (String c EmptyString) (PyStr.rstrip s) = false.
Proof.
  induction s as [|x s IH]; [done|]. intros H. cbn [PyStr.rstrip].
  rewrite contains_char in H. apply orb_false_iff in H as [Hx H]. specialize (IH H).
  destruct (PyStr.rstrip s) as [|y r].
  - destruct (PyStr.is_space x); [done|]. rewrite contains_char, Hx. done.
  - by rewrite contains_char, Hx.
Qed.

Lemma strip_without (c : ascii) (s : string) :
  PyStr.contains (String c EmptyString) s = false ->
  PyStr.contains (String c EmptyString) (PyStr.strip s) = false.
Proof. intros H. by apply rstrip_without, lstrip_without. Qed.

Lemma split_on_without (sep c : ascii) (s : string) :
  PyStr.contains (String c EmptyString) s = false ->
  Forall (fun f => PyStr.contains (String c EmptyString) f = false) (PyStr.split_on sep s).
Proof.
  induction s as [|x s IH]; intros H; [by repeat constructor|].
  rewrite contains_char in H. apply orb_false_iff in H as [Hx H]. specialize (IH H).
  cbn [PyStr.split_on]. destruct (Ascii.eqb x sep).
  - by constructor.
  - destruct (PyStr.split_on sep s) as [|f fs].
    + repeat constructor. by rewrite contains_char, Hx.
    + apply Forall_cons in IH as [Hf Hfs]. constructor; [|done].
      by rewrite contains_char, Hx.
Qed.

Section SizeFacts.
Variable py_eval : host_eval.

Lemma total_elements_plain (params : list (string * pyval)) (dims : list string) :
  forall total out,
    Forall (fun d => PyStr.contains ":" d = false) dims ->
    total_elements py_eval params dims total out = (Returns total, out).
Proof.
  induction dims as [|d dims IH]; intros total out Hplain; [done|].
  apply Forall_cons in Hplain as [Hd Hrest].
  cbn [total_elements]. unfold _evaluate_range. rewrite Hd. cbn [negb].
  rewrite IH by done. by rewrite Z.mul_1_r, app_nil_r.
Qed.

(** X15. A dimension list without a colon counts one element per dimension:
    the size is the width of the element type, whatever numbers the
    dimensions are. *)
Theorem plain_dimensions_count_one_element (self : EnhancedModuleAnalyzer)
    (dims_str type_str : string) :
  PyStr.contains ":" dims_str = false ->
  _calculate_array_size py_eval self dims_str type_str
    = (Returns (type_size type_str), (all_parameters self).2).
Proof.
  intros Hplain. unfold _calculate_array_size.
  destruct (all_parameters self) as [params out]. simpl.
  rewrite total_elements_plain.
  - by rewrite Z.mul_1_l.
  - apply Forall_fmap. eapply Forall_impl; [by apply split_on_without|].
    intros f Hf. by apply strip_without.
Qed.

(** The loop over the dimensions stops at the first one that holds a
    colon when that one holds two or more. *)
Lemma total_elements_unpack_fails (params : list (string * pyval))
    (plain : list string) (bad : string) (rest : list string) :
  forall total out,
    Forall (fun d => PyStr.contains ":" d = false) plain ->
    2 < length (PyStr.split_on ":"%char bad) ->
    total_elements py_eval params (plain ++ bad :: rest) total out
      = (Raises "too many values to unpack (expected 2)", out).
Proof.
  induction plain as [|d plain IH]; intros total out Hplain Hbad.
  - cbn [app total_elements]. rewrite evaluate_range_unpack_fails by done.
    by rewrite app_nil_r.
  - apply Forall_cons in Hplain as [Hd Hrest].
    cbn [app total_elements]. unfold _evaluate_range at 1. rewrite Hd. cbn [negb].
    rewrite app_nil_r. by apply IH.
Qed.

(** X16. When the first dimension of the list that holds a colon holds two
    or more, [_calculate_array_size] raises: the error of the unpacking in
    [_evaluate_range] goes up to the caller, for every host (no bound is
    evaluated before it), every element type and whatever the dimensions
    after it are; only the parameters have been collected. *)
Theorem calculate_array_size_raises_on_two_colons (self : EnhancedModuleAnalyzer)
    (dims_str type_str : string) (plain : list string) (bad : string)
    (rest : list string) :
  map PyStr.strip (PyStr.split_on "," dims_str) = plain ++ bad :: rest ->
  Forall (fun d => PyStr.contains ":" d = false) plain ->
  2 < length (PyStr.split_on ":"%char bad) ->
  exists msg,
    _calculate_array_size py_eval self dims_str type_str
      = (Raises msg, (all_parameters self).2).
Proof.
  intros Hdims Hplain Hbad. unfold _calculate_array_size.
  destruct (all_parameters self) as [params out]. rewrite Hdims.
  rewrite total_elements_unpack_fails by done. eauto.
Qed.
End SizeFacts.

(** ** Allocatable arrays *)

Lemma prefix_lower_substring (kw s : string) :
  String.prefix kw (PyStr.lower (String.substring 0 (String.length kw) s)) = true ->
  String.prefix kw (PyStr.lower s) = true.
Proof.
  revert s. induction kw as [|a kw IH]; intros s H; [apply prefix_empty|].
  destruct s as [|x s]; [done|].
  simpl in H. cbn [PyStr.lower]. apply prefix_cons.
  destruct (ascii_dec a (PyStr.to_lower x)) as [->|]; [|done].
  split; [done|]. by apply IH.
Qed.

Lemma search_none {G : Type} (m : string -> option G) (s : string) :
  (forall t, m t = None \/ PyStr.contains "allocate" (PyStr.lower t) = true) ->
  PyStr.contains "allocate" (PyStr.lower s) = false ->
  Est.search m s = None.
Proof.
  intros Hm. induction s as [|x s IH]; intros Hs.
  - simpl. destruct (Hm EmptyString) as [->|H]; [done|discriminate].
  - cbn [Est.search]. destruct (Hm (String x s)) as [->|H]; [|congruence].
    apply IH. cbn [PyStr.lower PyStr.contains] in Hs. by apply orb_false_iff in Hs as [_ ?].
Qed.

Lemma match_allocate_needs_keyword (name t : string) :
  Est.match_allocate name t = None \/ PyStr.contains "allocate" (PyStr.lower t) = true.
Proof.
  unfold Est.match_allocate, Est.after_lit.
  destruct (Scan.iprefix "allocate" t) eqn:Hp; [right|by left].
  unfold Scan.iprefix in Hp. apply prefix_lower_substring in Hp.
  destruct (PyStr.lower t); cbn [PyStr.contains]; by rewrite Hp.
Qed.

Lemma allocatable_loop_none (py_eval : host_eval) (self : EnhancedModuleAnalyzer)
    (content : string) (matches : list (string * string)) :
  forall entries out,
    PyStr.contains "allocate" (PyStr.lower content) = false ->
    allocatable_loop py_eval self content matches entries out = (Returns entries, out).
Proof.
  induction matches as [|[kind name] matches IH]; intros entries out Hnone; [done|].
  cbn [allocatable_loop].
  rewrite (search_none _ _ (match_allocate_needs_keyword name) Hnone). by apply IH.
Qed.

(** X17. Allocatable arrays are sized from their [allocate] statement: in a
    text where the word [allocate] does not occur, in any case of
    letters, no allocatable array is recorded, however many are
    declared. *)
Theorem allocatable_needs_allocate_statement (py_eval : host_eval)
    (self : EnhancedModuleAnalyzer) (content : string) (info : memory_info)
    (out : list string) :
  PyStr.contains "allocate" (PyStr.lower content) = false ->
  _analyze_memory_usage py_eval self content = (Returns info, out) ->
  allocatable_arrays info = [].
Proof.
  intros Hnone. unfold _analyze_memory_usage.
  destruct (param_values_convert content); cbn [negb]; [|discriminate].
  destruct (static_loop py_eval self _ [] []) as [[statics|msg] out1]; [|discriminate].
  rewrite allocatable_loop_none by done. by intros [= <- _].
Qed.

(** ** Parameters *)

Lemma dict_update_get_other {V : Type} (k : string) (other d : list (string * V)) :
  k ∉ other.*1 -> dict_get k (dict_update d other) = dict_get k d.
Proof.
  unfold dict_update. revert d.
  induction other as [|[k' v'] other IH]; intros d Hk; simpl; [done|].
  simpl in Hk. rewrite not_elem_of_cons in Hk. destruct Hk as [Hne Hk].
  rewrite IH by done. by apply dict_get_set_ne.
Qed.

Lemma collect_fold_keeps (matches : list (string * string)) (k : string) :
  forall (acc : list (string * pyval) * list string),
    k ∉ matches.*1 ->
    dict_get k
      (fold_left
         (fun acc m =>
            let '(params, out) := acc in
            let '(param_name, param_value) := m in
            match dict_get param_value params with
            | Some v => (dict_set param_name v params, out)
            | None =>
                match Est.int_of_text param_value with
                | Some z => (dict_set param_name (PyInt z) params, out)
                | None =>
                    (params, out ++ ["Could not convert " +:+ param_value +:+ " to integer"])
                end
            end) matches acc).1
    = dict_get k acc.1.
Proof.
  induction matches as [|[name value] matches IH]; intros [params out] Hk; [done|].
  simpl in Hk. rewrite not_elem_of_cons in Hk. destruct Hk as [Hne Hk].
  cbn [fold_left]. rewrite IH by done.
  destruct (dict_get value params) as [v|]; simpl.
  - by apply dict_get_set_ne.
  - destruct (Est.int_of_text value) as [z|]; simpl; [by apply dict_get_set_ne|done].
Qed.

(** X18. A symbol of the configuration is a parameter with its configured
    value unless the text declares a parameter of that name. *)
Theorem collect_parameters_keeps_defines (defs : list (string * pyval))
    (content : string) (k : string) :
  k ∉ (Scan.finditer (Est.match_parameter PyStr.is_word) 0 content).*1 ->
  dict_get k (_collect_parameters defs content).1 = dict_get k (dict_update [] defs).
Proof.
  intros Hk. unfold _collect_parameters.
  by rewrite (collect_fold_keeps _ k (dict_update [] defs, [])).
Qed.

(** ** Blocks of directives *)

Lemma removelast_snoc {A : Type} (l : list A) (x : A) : removelast (l ++ [x]) = l.
Proof. apply removelast_last. Qed.

Lemma last_snoc {A : Type} (l : list A) (x d : A) : List.last (l ++ [x]) d = x.
Proof. apply last_last. Qed.

Section Blocks.
Variable py_eval : host_eval.

(** An opening directive pushes one flag. *)
Lemma handle_opening (st : PreprocessorState) (d : string) :
  PyStr.startswith (PyStr.strip d) "#if" = true ->
  exists v,
    active_blocks (_handle_preprocessor_directive py_eval st [d] 0).1.1
    = active_blocks st ++ [v].
Proof.
  intros Hif. unfold _handle_preprocessor_directive. cbn [line_at nth].
  destruct (PyStr.startswith (PyStr.strip d) "#ifdef"); [simpl; eauto|].
  destruct (PyStr.startswith (PyStr.strip d) "#ifndef"); [simpl; eauto|].
  rewrite Hif. destruct (_evaluate_preprocessor_expression _ _ _). simpl. eauto.
Qed.

(** [#elif] and [#else] replace the top flag of a stack that is not
    empty. *)
Lemma handle_middle (st : PreprocessorState) (d : string) (below : list pyval) (v : pyval) :
  PyStr.startswith (PyStr.strip d) "#elif" = true
  \/ PyStr.startswith (PyStr.strip d) "#else" = true ->
  active_blocks st = below ++ [v] ->
  exists v',
    active_blocks (_handle_preprocessor_directive py_eval st [d] 0).1.1 = below ++ [v'].
Proof.
  intros Hmid Hst.
  assert (Hclose : is_closing (PyStr.strip d) = true).
  { unfold is_closing. destruct Hmid as [-> | ->]; [done|]. by rewrite orb_true_r. }
  destruct (closing_not_opening _ Hclose) as (H1 & H2 & H3).
  unfold _handle_preprocessor_directive. cbn [line_at nth]. rewrite H1, H2, H3.
  assert (Hne : active_blocks st <> []) by (rewrite Hst; by destruct below).
  destruct (PyStr.startswith (PyStr.strip d) "#elif").
  - destruct (active_blocks st) eqn:Hbs; [done|].
    destruct (_evaluate_preprocessor_expression _ _ _). simpl.
    rewrite Hbs, Hst, removelast_snoc. eauto.
  - destruct Hmid as [?|Helse]; [done|]. rewrite Helse.
    destruct (active_blocks st) eqn:Hbs; [done|].
    simpl. rewrite Hbs, Hst, removelast_snoc. eauto.
Qed.

Lemma handle_endif (st : PreprocessorState) (d : string) (below : list pyval) (v : pyval) :
  PyStr.startswith (PyStr.strip d) "#endif" = true ->
  active_blocks st = below ++ [v] ->
  active_blocks (_handle_preprocessor_directive py_eval st [d] 0).1.1 = below.
Proof.
  intros Hend Hst.
  assert (Hclose : is_closing (PyStr.strip d) = true).
  { unfold is_closing. rewrite Hend. by rewrite !orb_true_r. }
  destruct (closing_not_opening _ Hclose) as (H1 & H2 & H3).
  destruct (endif_not_elif_else _ Hend) as [H4 H5].
  unfold _handle_preprocessor_directive. cbn [line_at nth].
  rewrite H1, H2, H3, H4, H5, Hend.
  assert (Hne : active_blocks st <> []) by (rewrite Hst; by destruct below).
  destruct (active_blocks st) eqn:Hbs; [done|].
  simpl. by rewrite Hbs, Hst, removelast_snoc.
Qed.

Lemma run_middles (middles : list string) :
  forall st below v,
    Forall (fun d => PyStr.startswith (PyStr.strip d) "#elif" = true
                     \/ PyStr.startswith (PyStr.strip d) "#else" = true) middles ->
    active_blocks st = below ++ [v] ->
    exists v', active_blocks (run_directives py_eval st middles) = below ++ [v'].
Proof.
  induction middles as [|d middles IH]; intros st below v Hmid Hst; [simpl; eauto|].
  apply Forall_cons in Hmid as [Hd Hrest].
  destruct (handle_middle st d below v Hd Hst) as [v1 H1].
  simpl. by apply (IH _ below v1).
Qed.

(** X5. A block, that is an opening directive ([#if], [#ifdef], [#ifndef]),
    then any number of [#elif] and [#else], then [#endif], leaves the
    activation stack as it found it, whatever the stack and whatever the
    expressions evaluate to. *)
Theorem block_restores_stack (st : PreprocessorState) (opening closing : string)
    (middles : list string) :
  PyStr.startswith (PyStr.strip opening) "#if" = true ->
  Forall (fun d => PyStr.startswith (PyStr.strip d) "#elif" = true
                   \/ PyStr.startswith (PyStr.strip d) "#else" = true) middles ->
  PyStr.startswith (PyStr.strip closing) "#endif" = true ->
  active_blocks (run_directives py_eval st (opening :: middles ++ [closing]))
    = active_blocks st.
Proof.
  intros Hopen Hmid Hclose. unfold run_directives. simpl. rewrite fold_left_app. simpl.
  destruct (handle_opening st opening Hopen) as [v Hv].
  destruct (run_middles middles _ _ v Hmid Hv) as [v' Hv'].
  by apply (handle_endif _ closing (active_blocks st) v').
Qed.
End Blocks.

(** ** [defined(NAME)] *)

Lemma append_empty_r (s : string) : s +:+ EmptyString = s.
Proof.
  induction s as [|c s IH]; [done|].
  change (String c (s +:+ EmptyString) = String c s). by f_equal.
Qed.

Lemma word_run_whole (s : string) (w r : string) :
  Regex.word_run s = (w, EmptyString) ->
  forall c t, PyStr.is_word c = false ->
    w = s /\ Regex.word_run (s +:+ String c t) = (s, String c t).
Proof.
  revert w. induction s as [|x s IH]; intros w Hrun c t Hc.
  - simpl in *. injection Hrun as <-. by rewrite Hc.
  - simpl in *. destruct (PyStr.is_word x); [|discriminate].
    destruct (Regex.word_run s) as [w' r'] eqn:Hs. injection Hrun as <- ->.
    destruct (IH w' eq_refl c t Hc) as [-> ->]. done.
Qed.

Lemma sub_defined_skips (defs : list (string * pyval)) (s : string) :
  forall k, String.length s <= k -> sub_defined defs k s = EmptyString.
Proof.
  induction s as [|c s IH]; intros k Hk; [done|].
  simpl in Hk. destruct k as [|k]; [lia|]. simpl. apply IH. lia.
Qed.

Lemma length_append (s t : string) :
  String.length (s +:+ t) = String.length s + String.length t.
Proof.
  induction s as [|c s IH]; [done|].
  change (S (String.length (s +:+ t)) = S (String.length s + String.length t)).
  by f_equal.
Qed.

Lemma append_cons (c : ascii) (s t : string) : String c s +:+ t = String c (s +:+ t).
Proof. reflexivity. Qed.

Lemma append_empty_l (t : string) : EmptyString +:+ t = t.
Proof. reflexivity. Qed.

Lemma sub_defined_step (defs : list (string * pyval)) (c : ascii) (s name : string)
    (n : nat) :
  Regex.match_defined (String c s) = Some (name, n) ->
  sub_defined defs 0 (String c s)
    = py_str (PyBool (dict_mem name defs)) +:+ sub_defined defs (n - 1) s.
Proof. intros H. cbn [sub_defined]. by rewrite H. Qed.

Lemma match_defined_call (name : string) :
  Regex.is_name name = true ->
  Regex.match_defined ("defined(" +:+ name +:+ ")")
    = Some (name, 8 + String.length name + 1).
Proof.
  unfold Regex.is_name. intros Hname.
  destruct (Regex.word_run name) as [w r] eqn:Hrun.
  destruct w as [|c0 w]; [done|]. destruct r; [|done].
  destruct (word_run_whole name _ EmptyString Hrun ")"%char EmptyString eq_refl)
    as [Hw Happ].
  rewrite !append_cons, append_empty_l. unfold Regex.match_defined.
  assert (String.prefix "defined(" (String "d" (String "e" (String "f" (String "i"
            (String "n" (String "e" (String "d" (String "(" (name +:+ ")")))))))))
          = true) as ->.
  { repeat (apply prefix_cons; split; [done|]). apply prefix_empty. }
  cbn [PyStr.slice_from]. rewrite Happ, <- Hw. reflexivity.
Qed.

Lemma sub_defined_call (defs : list (string * pyval)) (name : string) :
  Regex.is_name name = true ->
  sub_defined defs 0 ("defined(" +:+ name +:+ ")")
    = py_str (PyBool (dict_mem name defs)).
Proof.
  intros Hname. pose proof (match_defined_call name Hname) as Hm.
  rewrite !append_cons, append_empty_l in *.
  rewrite (sub_defined_step _ _ _ _ _ Hm).
  rewrite sub_defined_skips; [apply append_empty_r|].
  cbn [String.length]. rewrite length_append. cbn [String.length]. lia.
Qed.

(** Inside a word nothing is replaced: after a word character, a text of
    word characters has no word boundary. *)
Lemma sub_word_inside (d r : string) (w : string) :
  forall c, PyStr.is_word c = true -> Atoms.all_chars PyStr.is_word w = true ->
    Regex.sub_word d r (Some c) 0 w = w.
Proof.
  induction w as [|x w IH]; intros c Hc Hw; [done|].
  simpl in Hw. apply andb_true_iff in Hw as [Hx Hw].
  cbn [Regex.sub_word]. unfold Regex.match_word, Regex.boundary.
  cbn [Regex.head Regex.wordp]. rewrite Hc, Hx. cbn [xorb andb].
  by rewrite IH.
Qed.

Lemma word_run_all (s w : string) :
  Regex.word_run s = (w, EmptyString) -> Atoms.all_chars PyStr.is_word s = true.
Proof.
  revert w. induction s as [|x s IH]; intros w H; [done|].
  simpl in *. destruct (PyStr.is_word x); [|discriminate].
  destruct (Regex.word_run s) as [w' r'] eqn:Hs. injection H as <- ->. by eapply IH.
Qed.

Lemma last_char_word (d : string) :
  forall before, d <> EmptyString -> Atoms.all_chars PyStr.is_word d = true ->
    Regex.wordp (Regex.last_char before d) = true.
Proof.
  induction d as [|x d IH]; intros before Hne Hd; [done|].
  simpl in Hd. apply andb_true_iff in Hd as [Hx Hd]. cbn [Regex.last_char].
  destruct d as [|y d]; [by simpl|]. by apply IH.
Qed.

(** A name that is a proper prefix of a word ends inside the word. *)
Lemma prefix_proper (d w : string) :
  String.prefix d w = true -> d <> w ->
  Atoms.all_chars PyStr.is_word w = true ->
  Regex.wordp (Regex.head (PyStr.slice_from (String.length d) w)) = true.
Proof.
  revert w. induction d as [|a d IH]; intros w Hp Hne Hw.
  - simpl. destruct w as [|x w]; [done|]. simpl in *. by apply andb_true_iff in Hw as [-> _].
  - destruct w as [|x w]; [done|]. apply prefix_cons in Hp as [-> Hp].
    simpl in Hw. apply andb_true_iff in Hw as [_ Hw]. cbn [String.length PyStr.slice_from].
    apply IH; [done| |done]. congruence.
Qed.

Lemma sub_word_other (d r w : string) :
  Regex.is_name d = true -> d <> w -> Atoms.all_chars PyStr.is_word w = true ->
  Regex.sub_word d r None 0 w = w.
Proof.
  intros Hd Hne Hw. destruct w as [|x w]; [done|].
  cbn [Regex.sub_word].
  assert (Hno : Regex.match_word d None (String x w) = false).
  { unfold Regex.match_word. destruct (String.prefix d (String x w)) eqn:Hp;
      [|by rewrite andb_false_r].
    unfold Regex.is_name in Hd. destruct (Regex.word_run d) as [dw dr] eqn:Hrun.
    destruct dw as [|c0 dw]; [done|]. destruct dr; [|done].
    assert (Hdne : d <> EmptyString) by (intros ->; discriminate).
    unfold Regex.boundary at 2.
    rewrite (last_char_word d None Hdne (word_run_all _ _ Hrun)).
    rewrite (prefix_proper d (String x w) Hp Hne Hw). by rewrite andb_false_r. }
  rewrite Hno. simpl in Hw. apply andb_true_iff in Hw as [Hx Hw].
  by rewrite sub_word_inside.
Qed.

Lemma dict_get_none_keys {V : Type} (k : string) (d : list (string * V)) :
  dict_get k d = None -> Forall (fun kv => kv.1 <> k) d.
Proof.
  induction d as [|[k' v'] d IH]; simpl; [constructor|].
  destruct (String.eqb k k') eqn:Hk; [discriminate|]. intros H.
  constructor; [|by apply IH]. simpl. intros ->. by rewrite String.eqb_refl in Hk.
Qed.

Lemma substitute_defines_other (w : string) (defs : list (string * pyval)) :
  Atoms.all_chars PyStr.is_word w = true ->
  Forall (fun dv : string * pyval => Regex.is_name dv.1 = true) defs ->
  dict_get w defs = None ->
  fold_left (fun e dv => Regex.sub_word dv.1 (py_str dv.2) None 0 e) defs w = w.
Proof.
  intros Hw Hnames Hget. apply dict_get_none_keys in Hget.
  induction defs as [|[d v] defs IH]; [done|].
  apply Forall_cons in Hnames as [Hd Hnames]. apply Forall_cons in Hget as [Hne Hget].
  simpl in *. rewrite sub_word_other by done. by apply IH.
Qed.

(** X6. [defined(NAME)] asks whether the name is a key of the symbol table,
    not what its value is: the text handed to [eval] is [True] when it is
    a key and [False] when it is not, so a symbol configured as false
    makes [#if defined(NAME)] true although [#ifdef NAME] pushes its
    false value.  The names are words and none is [True] or [False]. *)
Theorem defined_tests_presence (py_eval : host_eval) (st : PreprocessorState)
    (name : string) :
  names_are_words st ->
  Regex.is_name name = true ->
  dict_get "True" (defines st) = None ->
  dict_get "False" (defines st) = None ->
  rewrite_expression st ("defined(" +:+ name +:+ ")")
    = py_str (PyBool (dict_mem name (defines st)))
  /\ (py_eval EnvEmpty "True" = Returns (ObjBool true) ->
      dict_mem name (defines st) = true ->
      _evaluate_preprocessor_expression py_eval st ("defined(" +:+ name +:+ ")")
        = (true, [])).
Proof.
  intros Hwords Hname Htrue Hfalse.
  assert (Hrw : rewrite_expression st ("defined(" +:+ name +:+ ")")
                = py_str (PyBool (dict_mem name (defines st)))).
  { unfold rewrite_expression. rewrite sub_defined_call by done.
    destruct (dict_mem name (defines st));
      cbn [py_str]; (rewrite !replace_none by done);
      by apply substitute_defines_other. }
  split; [exact Hrw|]. intros Hhost Hmem.
  unfold _evaluate_preprocessor_expression. rewrite Hrw, Hmem. cbn [py_str].
  by rewrite Hhost.
Qed.

(** ** Texts without expressions *)

(** A directive line that hands no expression to the evaluator is
    handled in the same way under every host, and prints nothing. *)
Lemma handle_without_eval (py_eval py_eval' : host_eval) (st : PreprocessorState)
    (lines : list string) (i : nat) :
  calls_eval (line_at lines i) = false ->
  _handle_preprocessor_directive py_eval st lines i
    = _handle_preprocessor_directive py_eval' st lines i
  /\ (_handle_preprocessor_directive py_eval st lines i).2 = [].
Proof.
  unfold calls_eval, _handle_preprocessor_directive. cbv zeta.
  destruct (PyStr.startswith (PyStr.strip (line_at lines i)) "#ifdef"); [done|].
  destruct (PyStr.startswith (PyStr.strip (line_at lines i)) "#ifndef"); [done|].
  cbn [negb andb]. intros H. apply orb_false_iff in H as [-> ->].
  destruct (PyStr.startswith (PyStr.strip (line_at lines i)) "#else");
    [by destruct (active_blocks st)|].
  destruct (PyStr.startswith (PyStr.strip (line_at lines i)) "#endif");
    [by destruct (active_blocks st)|done].
Qed.

Lemma parse_loop_without_eval (py_eval py_eval' : host_eval) (lines : list string) :
  Forall (fun raw => calls_eval raw = false) lines ->
  forall fuel st i processed out,
    parse_loop py_eval fuel st lines i processed out
      = parse_loop py_eval' fuel st lines i processed out
    /\ (forall r, parse_loop py_eval fuel st lines i processed out = Some r -> r.2 = out).
Proof.
  intros Hlines. induction fuel as [|fuel IH]; intros st i processed out.
  - cbn [parse_loop]. destruct (i <? length lines); cbn [negb]; [done|].
    split; [done|]. by intros r [= <-].
  - cbn [parse_loop]. destruct (i <? length lines) eqn:Hi; cbn [negb].
    + apply Nat.ltb_lt in Hi.
      assert (Hline : calls_eval (line_at lines i) = false).
      { unfold line_at. by apply (proj1 (List.Forall_forall _ lines) Hlines), nth_In. }
      destruct (PyStr.startswith (PyStr.strip (line_at lines i)) "#").
      * destruct (handle_without_eval py_eval py_eval' st lines i Hline) as [<- Hout].
        destruct (_handle_preprocessor_directive py_eval st lines i) as [[st1 i1] o].
        simpl in Hout. subst o. rewrite app_nil_r. apply IH.
      * destruct (is_active st); apply IH.
    + split; [done|]. by intros r [= <-].
Qed.

(** X4. A text in which no line is an [#if] or [#elif] with an
    expression (its directives are [#ifdef], [#ifndef], [#else],
    [#endif] or lines the handler does not know) is processed without a
    call of [eval]: [parse_file] returns, with the same state and the
    same text under every host, prints no diagnostic, and leaves the
    symbol table as it was. *)
Theorem parse_file_without_expressions (st : PreprocessorState) (content : string) :
  Forall (fun raw => calls_eval raw = false) (PyStr.split_on "010"%char content) ->
  exists st' text,
    (forall py_eval : host_eval, parse_file py_eval st content = Some (st', text, []))
    /\ defines st' = defines st.
Proof.
  intros Hlines.
  pose (silent := (fun _ _ => Raises EmptyString) : host_eval).
  destruct (parse_lines_total silent st content) as [[[st' processed] out] Hrun].
  assert (Hout : out = []).
  { unfold parse_lines in Hrun.
    by apply (proj2 (parse_loop_without_eval silent silent _ Hlines _ _ _ _ _)) in Hrun. }
  subst out.
  exists st', (PyStr.join (String "010"%char EmptyString) processed). split.
  - intros py_eval. unfold parse_file, parse_lines.
    rewrite (proj1 (parse_loop_without_eval py_eval silent _ Hlines _ _ _ _ _)).
    unfold parse_lines in Hrun. by rewrite Hrun.
  - unfold parse_lines in Hrun. by apply parse_loop_defines in Hrun.
Qed.

Lemma parse_file_without_expressions_witness :
  exists st' text,
    (forall py_eval : host_eval,
       parse_file py_eval (new_state [("A", PyBool true)])
         (PyStr.join nl ["#ifdef A"; "x = 1"; "y = 2"; "#else"; "z = 3"; "w = 4"; "#endif"])
       = Some (st', text, []))
    /\ defines st' = defines (new_state [("A", PyBool true)]).
Proof.
  apply (parse_file_without_expressions (new_state [("A", PyBool true)])
           (PyStr.join nl
              ["#ifdef A"; "x = 1"; "y = 2"; "#else"; "z = 3"; "w = 4"; "#endif"])).
  vm_compute. repeat constructor.
Defined.

(** ** The theorems above on concrete inputs *)

Lemma parse_file_plain_text_witness :
  parse_file Atoms.py_eval_atoms (new_state []) (PyStr.join nl ["program p"; "end program p"])
    = Some (new_state [], PyStr.join nl ["program p"; "end program p"], []).
Proof.
  apply (parse_file_plain_text Atoms.py_eval_atoms (new_state [])
           (PyStr.join nl ["program p"; "end program p"])).
  repeat constructor.
Defined.

Lemma line_after_directive_is_skipped_witness :
  parse_loop Atoms.py_eval_atoms 3 (new_state []) (<[1 := "#endif"]> ["#ifdef A"; "x = 1"; "y = 2"])
             0 [] []
  = parse_loop Atoms.py_eval_atoms 3 (new_state []) ["#ifdef A"; "x = 1"; "y = 2"] 0 [] [].
Proof.
  apply (line_after_directive_is_skipped Atoms.py_eval_atoms 3 (new_state [])
           ["#ifdef A"; "x = 1"; "y = 2"] 0 "#endif" [] []).
  reflexivity.
Defined.

Lemma analyze_file_lists_reachable_units_witness :
  exists needed,
    analyze_file (new_analyzer cyclic_dir) "a.F90"
      = Some (analyze_dependencies (scan_files (new_analyzer cyclic_dir)), needed ++ ["a"])
    /\ NoDup needed
    /\ (forall x,
          x ∈ needed
          <-> tc (uses (deps_of (dependencies
                                   (analyze_dependencies (scan_files (new_analyzer cyclic_dir))))))
                 "a" x).
Proof.
  apply (analyze_file_lists_reachable_units cyclic_dir "a.F90" "a").
  vm_compute. reflexivity.
Defined.

Lemma order_repeats_target_on_cycle_witness :
  NoDup ["a"; "b"; "a"]
  <-> ~ tc (uses (deps_of (dependencies
                             (analyze_dependencies (scan_files (new_analyzer cyclic_dir))))))
           "a" "a".
Proof.
  apply (order_repeats_target_on_cycle cyclic_dir "a.F90" "a" ["a"; "b"; "a"]).
  - vm_compute. reflexivity.
  - vm_compute. reflexivity.
Defined.

Lemma order_of_unit_without_references_witness :
  analyze_file (new_analyzer sample_dir) "c.F90"
    = Some (analyze_dependencies (scan_files (new_analyzer sample_dir)), ["c"]).
Proof.
  apply (order_of_unit_without_references sample_dir "c.F90" "c").
  - vm_compute. reflexivity.
  - vm_compute. reflexivity.
Defined.

Lemma analyze_file_order_is_topological_witness :
  dependencies_first
    (deps_of (dependencies (analyze_dependencies (scan_files (new_analyzer sample_dir)))))
    ["c"; "b"; "a"; "main"].
Proof.
  apply (analyze_file_order_is_topological sample_dir "main.F90"
           (analyze_dependencies (scan_files (new_analyzer sample_dir)))
           ["c"; "b"; "a"; "main"]).
  - vm_compute. reflexivity.
  - apply (ranked_acyclic sample_rank). vm_compute. reflexivity.
Defined.

Lemma scan_files_last_file_wins_witness :
  dict_get "grid"
    (modules (scan_files (new_analyzer
       ([("old.F90", "module grid")] ++ ("new.F90", "MODULE Grid") :: [("main.F90", "program p")]))))
  = Some "new.F90".
Proof.
  apply (scan_files_last_file_wins [("old.F90", "module grid")] [("main.F90", "program p")]
           "new.F90" "MODULE Grid" "grid").
  - vm_compute. left.
  - repeat constructor. vm_compute. apply not_elem_of_nil.
Defined.

Lemma catalog_names_are_lower_case_witness :
  Forall lower_case
    (modules (analyze_dependencies (scan_files (new_analyzer
       [("Grid.F90", PyStr.join nl ["MODULE Grid"; "USE Mpi_Env"])])))).*1.
Proof.
  apply (catalog_names_are_lower_case
           [("Grid.F90", PyStr.join nl ["MODULE Grid"; "USE Mpi_Env"])]).
Defined.

Lemma find_dependencies_once_each_witness :
  NoDup (_find_dependencies (PyStr.join nl ["use Mpi"; "USE mpi, only: comm"; "use grid"])).
Proof.
  apply (find_dependencies_once_each
           (PyStr.join nl ["use Mpi"; "USE mpi, only: comm"; "use grid"])).
Defined.

Lemma evaluate_range_returns_up_to_one_colon_witness :
  exists size out,
    _evaluate_range Atoms.py_eval_atoms "0:unknown_sym" [] = (Returns size, out).
Proof.
  apply (evaluate_range_returns_up_to_one_colon Atoms.py_eval_atoms "0:unknown_sym" []).
  simpl. lia.
Defined.

Lemma plain_dimensions_count_one_element_witness :
  _calculate_array_size Atoms.py_eval_atoms (new_enhanced [] []) "10, 20" "real32"
    = (Returns 4%Z, []).
Proof.
  apply (plain_dimensions_count_one_element Atoms.py_eval_atoms (new_enhanced [] [])
           "10, 20" "real32").
  reflexivity.
Defined.

Lemma calculate_array_size_raises_on_two_colons_witness :
  exists msg,
    _calculate_array_size Atoms.py_eval_atoms (new_enhanced [] []) "10, 1:2:3, 0:n" "real32"
      = (Raises msg, (all_parameters (new_enhanced [] [])).2).
Proof.
  apply (calculate_array_size_raises_on_two_colons Atoms.py_eval_atoms (new_enhanced [] [])
           "10, 1:2:3, 0:n" "real32" ["10"] "1:2:3" ["0:n"]).
  - reflexivity.
  - repeat constructor.
  - simpl. lia.
Defined.

Lemma allocatable_needs_allocate_statement_witness :
  exists info out,
    _analyze_memory_usage Atoms.py_eval_atoms (new_enhanced [] [])
      "real(RK), allocatable :: a(:)" = (Returns info, out)
    /\ allocatable_arrays info = [].
Proof.
  eexists _, _. split; [reflexivity|].
  apply (allocatable_needs_allocate_statement Atoms.py_eval_atoms (new_enhanced [] [])
           "real(RK), allocatable :: a(:)" (mkMemoryInfo [] [] []) []).
  - reflexivity.
  - reflexivity.
Defined.

Lemma collect_parameters_keeps_defines_witness :
  dict_get "DEBUG"
    (_collect_parameters [("N", PyInt 4); ("DEBUG", PyBool true)]
                         "integer, parameter :: n = N").1
  = dict_get "DEBUG" (dict_update [] [("N", PyInt 4); ("DEBUG", PyBool true)]).
Proof.
  apply (collect_parameters_keeps_defines [("N", PyInt 4); ("DEBUG", PyBool true)]
           "integer, parameter :: n = N" "DEBUG").
  vm_compute. intros H. apply list_elem_of_singleton in H. discriminate.
Defined.

Lemma block_restores_stack_witness :
  active_blocks (run_directives Atoms.py_eval_atoms (mkState [] [PyBool true; PyBool false])
                   ("#ifdef A" :: ["#elif 1"; "#else"] ++ ["#endif"]))
  = [PyBool true; PyBool false].
Proof.
  apply (block_restores_stack Atoms.py_eval_atoms (mkState [] [PyBool true; PyBool false])
           "#ifdef A" "#endif" ["#elif 1"; "#else"]).
  - reflexivity.
  - constructor; [left; reflexivity|]. constructor; [right; reflexivity|]. constructor.
  - reflexivity.
Defined.

Lemma defined_tests_presence_witness :
  rewrite_expression (new_state [("X", PyBool false)]) ("defined(" +:+ "X" +:+ ")")
    = "True".
Proof.
  apply (defined_tests_presence Atoms.py_eval_atoms (new_state [("X", PyBool false)]) "X").
  - repeat constructor.
  - reflexivity.
  - reflexivity.
  - reflexivity.
Defined.

(** ** The units a run reports *)

Lemma dict_mem_set {V : Type} (u k : string) (v : V) (d : list (string * V)) :
  dict_mem u (dict_set k v d) = true <-> u = k \/ dict_mem u d = true.
Proof.
  unfold dict_mem. destruct (decide (u = k)) as [->|Hne].
  - rewrite dict_get_set_eq. tauto.
  - rewrite dict_get_set_ne by done. split; [tauto|]. intros [?|?]; done.
Qed.

Lemma process_units_report (py_eval : host_eval) (a : ModuleDependencyAnalyzer)
    (units : list string) :
  forall self res out self' res' out',
    Full.process_units py_eval a units self res out = Some (self', Returns res', out') ->
    forall u, dict_mem u res' = true
              <-> dict_mem u res = true \/ (u ∈ units /\ located a u = true).
Proof.
  induction units as [|unit units IH]; intros self res out self' res' out' Hrun u.
  - simpl in Hrun. injection Hrun as _ <- _. rewrite elem_of_nil. tauto.
  - cbn [Full.process_units] in Hrun. rewrite elem_of_cons.
    assert (Hnew : forall f kind r,
              dict_get unit (modules a) = Some f
              \/ (dict_get unit (modules a) = None /\ dict_get unit (programs a) = Some f) ->
              dict_mem u (dict_set unit (kind, r) res) = true
                \/ (u ∈ units /\ located a u = true)
              <-> dict_mem u res = true
                  \/ ((u = unit \/ u ∈ units) /\ located a u = true)).
    { intros f kind r Hf. rewrite dict_mem_set.
      assert (located a unit = true) as Hloc.
      { unfold located, dict_mem. destruct Hf as [-> | [-> ->]]; done. }
      split; [intros [[->|?]|[? ?]]; tauto|].
      intros [?|[[->|?] ?]]; tauto. }
    destruct (dict_get unit (modules a)) as [f|] eqn:Hm.
    + destruct (parse_file py_eval _ _) as [[[st text] printed]|]; [|discriminate].
      destruct (_analyze_memory_usage py_eval _ text) as [[info|msg] printed'];
        [|discriminate].
      rewrite (IH _ _ _ _ _ _ Hrun u). apply (Hnew f). by left.
    + destruct (dict_get unit (programs a)) as [f|] eqn:Hp.
      * destruct (parse_file py_eval _ _) as [[[st text] printed]|]; [|discriminate].
        destruct (_analyze_memory_usage py_eval _ text) as [[info|msg] printed'];
          [|discriminate].
        rewrite (IH _ _ _ _ _ _ Hrun u). apply (Hnew f). by right.
      * rewrite (IH _ _ _ _ _ _ Hrun u).
        assert (located a unit = false) as Hloc.
        { unfold located, dict_mem. by rewrite Hm, Hp. }
        split; [tauto|]. intros [?|[[->|?] ?]]; [tauto|congruence|tauto].
Qed.

(** X19. For a host in the sense of [host_eval] (its [eval] answers with a
    value or an instance of [Exception] and leaves the analyzer alone):
    when [analyze_module], the estimate of the sizes included, returns,
    its result has an entry for exactly the units of the dependency order
    that the catalog has a file for; a referenced unit without a file (a
    module of a library, say) gets none. *)
Theorem analyze_module_reports_located_units (py_eval : host_eval)
    (self self' : EnhancedModuleAnalyzer) (filename : string)
    (a : ModuleDependencyAnalyzer) (order : list string) (res : Full.results)
    (out : list string) :
  analyze_file (new_analyzer (source_root self)) filename = Some (a, order) ->
  Full.analyze_module py_eval self filename = Some (self', Returns res, out) ->
  forall unit, dict_mem unit res = true <-> unit ∈ order /\ located a unit = true.
Proof.
  intros Horder. unfold Full.analyze_module. rewrite Horder. intros Hrun unit.
  rewrite (process_units_report _ _ _ _ _ _ _ _ _ Hrun unit).
  unfold dict_mem at 1. simpl. split; [intros [?|?]; [done|tauto]|tauto].
Qed.

Lemma analyze_module_reports_located_units_witness :
  dict_mem "mpi"
    [("p", (KProgram, Full.mkUnitResult "p" "main.F90" (mkMemoryInfo [] [] []) ["mpi"]))]
    = true
  <-> "mpi" ∈ ["mpi"; "p"]
      /\ located (analyze_dependencies (scan_files (new_analyzer
                    [("main.F90", PyStr.join nl ["program p"; "use mpi"])]))) "mpi" = true.
Proof.
  apply (analyze_module_reports_located_units Atoms.py_eval_atoms
           (new_enhanced [("main.F90", PyStr.join nl ["program p"; "use mpi"])] [])
           (mkEnhanced [("main.F90", PyStr.join nl ["program p"; "use mpi"])]
                       (new_state []) [("p", PyStr.join nl ["program p"; "use mpi"])])
           "main.F90" _ ["mpi"; "p"] _ ["Could not find file for mpi"]).
  - vm_compute. reflexivity.
  - vm_compute. reflexivity.
Defined.
